(** * PyCRS: the CRS containers of [pycrs/elements/containers.py]

    A shallow embedding of the container classes ([CRS], [Projection],
    [Datum], [Ellipsoid], [GeogCS], [ProjCS]) and of their three renders
    (PROJ, OGC WKT, ESRI WKT), followed by the properties of the renders. *)

From Stdlib Require Import String Ascii List Bool.
Import ListNotations.

Local Open Scope string_scope.
Local Open Scope bool_scope.

(** ** The Python builtins the containers rely on *)

Module builtins.

(** [str(x)], which is also what ["%s" % x] puts in place of [%s]. *)
Class Str (A : Type) := str : A -> string.

#[export] Instance Str_string : Str string := fun s => s.

(** A value that may be [None]; [str(None)] is the text [None]. *)
#[export] Instance Str_option {A} `{Str A} : Str (option A) :=
  fun v => match v with Some a => str a | None => "None" end.

(** Truth value of a string-or-[None] attribute: [None] and the empty
    string are false, every other string is true. *)
Definition truthy (v : option string) : bool :=
  match v with
  | None => false
  | Some s => negb (s =? "")
  end.

(** [x == None]. *)
Definition is_None {A} (v : option A) : bool :=
  match v with None => true | Some _ => false end.

(** [sep.join(l)]. *)
Definition join (sep : string) (l : list string) : string := String.concat sep l.

(** The double-quote character of the WKT grammars. *)
Definition dquote : string := String (ascii_of_nat 34) EmptyString.

(** What a call gives back: a value, or the exception it raised. *)
Inductive exception := Exception (name : string).

Inductive outcome (A : Type) :=
| Returns (a : A)
| Raises (e : exception).

Arguments Returns {A} a.
Arguments Raises {A} e.

(** A value of any type, as the right operand of [%]: a tuple is the
    tuple of the arguments of the format and is kept apart; any other
    value is seen through the text [str] gives for it. *)
Inductive value :=
| NotTuple (text : string)
| Tuple (texts : list string).

(** ["%s" % v]: the text of [v]; of its only item when [v] is a tuple of
    one item; a [TypeError] when [v] is a tuple of none or of several. *)
Definition format_s (v : value) : outcome string :=
  match v with
  | NotTuple text => Returns text
  | Tuple [text] => Returns text
  | Tuple _ => Raises (Exception "TypeError")
  end.

End builtins.
Import builtins.

(** ** The catalogue modules imported by containers.py *)

(** Modelled from the spec: the module [pycrs/elements/directions.py] is
    missing; a direction is a record of its three identifiers, and the
    catalogue supplies the instances [East()] and [North()]. *)
Module directions.

Record Direction := { proj4 : string; ogc_wkt : string; esri_wkt : string }.

Class Catalog := { East : Direction; North : Direction }.

End directions.

(** Modelled from the spec: the module [pycrs/elements/datums.py] is
    missing; a datum name exposes a PROJ identifier that may be absent and
    its two WKT identifiers, and is or is not an instance of [Unknown]. *)
Module datums.

Record Name := {
  Unknown : bool;
  proj4 : option string;
  ogc_wkt : string;
  esri_wkt : string }.

End datums.

(** Modelled from the spec: the module [pycrs/elements/ellipsoids.py] is
    missing; an ellipsoid name exposes the same identifiers and the default
    semimajor axis and inverse flattening, each an attribute that Python
    lets hold [None]. *)
Module ellipsoids.

Record Name {num : Type} := {
  Unknown : bool;
  proj4 : option string;
  ogc_wkt : string;
  esri_wkt : string;
  semimaj_ax : option num;
  inv_flat : option num }.

Arguments Name num : clear implicits.

End ellipsoids.

(** Modelled from the spec: the module [pycrs/elements/projections.py] is
    missing; a projection method exposes its three identifiers. *)
Module projections.

Record Name := { proj4 : option string; ogc_wkt : string; esri_wkt : string }.

End projections.

(** Modelled from the spec: the module [pycrs/elements/parameters.py] is
    missing; its objects (datum shift, prime meridian, angular and linear
    unit, projection parameters) are opaque, render themselves in the three
    grammars, and have no truth value of their own, so that a datum shift
    that is present is true. *)
Module parameters.

Class Renderable (A : Type) := {
  to_proj4 : A -> string;
  to_ogc_wkt : A -> string;
  to_esri_wkt : A -> string }.

End parameters.

(** ** containers.py *)

Module Projection.

Record t := { value : projections.Name }.

Definition init (value : projections.Name) : t := {| value := value |}.

Definition to_proj4 (self : t) : string :=
  "+proj=" ++ str (projections.proj4 (value self)).

Definition to_ogc_wkt (self : t) : string :=
  "PROJECTION[" ++ dquote ++ projections.ogc_wkt (value self) ++ dquote ++ "]".

Definition to_esri_wkt (self : t) : string :=
  "PROJECTION[" ++ dquote ++ projections.esri_wkt (value self) ++ dquote ++ "]".

End Projection.

Module Ellipsoid.
Section Ellipsoid.
Context {num : Type} `{Str num}.

Record t := {
  name : ellipsoids.Name num;
  semimaj_ax : option num;
  inv_flat : option num }.

(** [__init__(self, name, semimaj_ax=None, inv_flat=None)] *)
Definition init (name : ellipsoids.Name num) (semimaj_ax inv_flat : option num) : t :=
  let semimaj_ax :=
    if is_None semimaj_ax then ellipsoids.semimaj_ax name else semimaj_ax in
  let inv_flat :=
    if is_None inv_flat then ellipsoids.inv_flat name else inv_flat in
  {| name := name; semimaj_ax := semimaj_ax; inv_flat := inv_flat |}.

Definition to_proj4 (self : t) : string :=
  if ellipsoids.Unknown (name self) then
    "+a=" ++ str (semimaj_ax self) ++ " +f=" ++ str (inv_flat self)
  else if negb (truthy (ellipsoids.proj4 (name self))) then
    "+a=" ++ str (semimaj_ax self) ++ " +f=" ++ str (inv_flat self)
  else
    "+ellps=" ++ str (ellipsoids.proj4 (name self))
      ++ " +a=" ++ str (semimaj_ax self) ++ " +f=" ++ str (inv_flat self).

Definition to_ogc_wkt (self : t) : string :=
  "SPHEROID[" ++ dquote ++ ellipsoids.ogc_wkt (name self) ++ dquote
    ++ ", " ++ str (semimaj_ax self) ++ ", " ++ str (inv_flat self) ++ "]".

Definition to_esri_wkt (self : t) : string :=
  "SPHEROID[" ++ dquote ++ ellipsoids.esri_wkt (name self) ++ dquote
    ++ ", " ++ str (semimaj_ax self) ++ ", " ++ str (inv_flat self) ++ "]".

End Ellipsoid.
Arguments t num : clear implicits.
End Ellipsoid.

Module Datum.
Section Datum.
Context {num : Type} `{Str num} {Param : Type} `{parameters.Renderable Param}.

Record t := {
  name : datums.Name;
  ellips : Ellipsoid.t num;
  datumshift : option Param }.

(** [__init__(self, name, ellipsoid, datumshift=None)] *)
Definition init (name : datums.Name) (ellipsoid : Ellipsoid.t num)
    (datumshift : option Param) : t :=
  {| name := name; ellips := ellipsoid; datumshift := datumshift |}.

Definition to_proj4 (self : t) : string :=
  match datumshift self with
  | Some shift =>
      Ellipsoid.to_proj4 (ellips self) ++ " " ++ parameters.to_proj4 shift
  | None =>
      if datums.Unknown (name self) then
        Ellipsoid.to_proj4 (ellips self)
      else if negb (truthy (datums.proj4 (name self))) then
        Ellipsoid.to_proj4 (ellips self)
      else
        "+datum=" ++ str (datums.proj4 (name self))
          ++ " " ++ Ellipsoid.to_proj4 (ellips self)
  end.

Definition to_ogc_wkt (self : t) : string :=
  match datumshift self with
  | Some shift =>
      "DATUM[" ++ dquote ++ datums.ogc_wkt (name self) ++ dquote
        ++ ", " ++ Ellipsoid.to_ogc_wkt (ellips self)
        ++ ", " ++ parameters.to_ogc_wkt shift ++ "]"
  | None =>
      "DATUM[" ++ dquote ++ datums.ogc_wkt (name self) ++ dquote
        ++ ", " ++ Ellipsoid.to_ogc_wkt (ellips self) ++ "]"
  end.

Definition to_esri_wkt (self : t) : string :=
  match datumshift self with
  | Some shift =>
      "DATUM[" ++ dquote ++ datums.esri_wkt (name self) ++ dquote
        ++ ", " ++ Ellipsoid.to_esri_wkt (ellips self)
        ++ ", " ++ parameters.to_esri_wkt shift ++ "]"
  | None =>
      "DATUM[" ++ dquote ++ datums.esri_wkt (name self) ++ dquote
        ++ ", " ++ Ellipsoid.to_esri_wkt (ellips self) ++ "]"
  end.

End Datum.
Arguments t num Param : clear implicits.
End Datum.

Module GeogCS.
Section GeogCS.
Context {num : Type} `{Str num} `{directions.Catalog}
  {Param : Type} `{parameters.Renderable Param}.

Record t := {
  name : string;
  datum : Datum.t num Param;
  prime_mer : Param;
  angunit : Param;
  twin_ax : directions.Direction * directions.Direction }.

(** [__init__(self, name, datum, prime_mer, angunit, twin_ax=None)] *)
Definition init (name : string) (datum : Datum.t num Param)
    (prime_mer angunit : Param)
    (twin_ax : option (directions.Direction * directions.Direction)) : t :=
  let twin_ax :=
    match twin_ax with
    | None => (directions.East, directions.North)
    | Some axes => axes
    end in
  {| name := name; datum := datum; prime_mer := prime_mer;
     angunit := angunit; twin_ax := twin_ax |}.

Definition to_proj4 (self : t) : string :=
  Datum.to_proj4 (datum self) ++ " " ++ parameters.to_proj4 (prime_mer self)
    ++ " " ++ parameters.to_proj4 (angunit self).

Definition to_ogc_wkt (self : t) : string :=
  "GEOGCS[" ++ dquote ++ name self ++ dquote
    ++ ", " ++ Datum.to_ogc_wkt (datum self)
    ++ ", " ++ parameters.to_ogc_wkt (prime_mer self)
    ++ ", " ++ parameters.to_ogc_wkt (angunit self)
    ++ ", AXIS[" ++ dquote ++ "Lon" ++ dquote ++ ", "
    ++ directions.ogc_wkt (fst (twin_ax self))
    ++ "], AXIS[" ++ dquote ++ "Lat" ++ dquote ++ ", "
    ++ directions.ogc_wkt (snd (twin_ax self)) ++ "]]".

Definition to_esri_wkt (self : t) : string :=
  "GEOGCS[" ++ dquote ++ name self ++ dquote
    ++ ", " ++ Datum.to_esri_wkt (datum self)
    ++ ", " ++ parameters.to_esri_wkt (prime_mer self)
    ++ ", " ++ parameters.to_esri_wkt (angunit self)
    ++ ", AXIS[" ++ dquote ++ "Lon" ++ dquote ++ ", "
    ++ directions.esri_wkt (fst (twin_ax self))
    ++ "], AXIS[" ++ dquote ++ "Lat" ++ dquote ++ ", "
    ++ directions.esri_wkt (snd (twin_ax self)) ++ "]]".

End GeogCS.
Arguments t num Param : clear implicits.
End GeogCS.

Module ProjCS.
Section ProjCS.
Context {num : Type} `{Str num} `{directions.Catalog}
  {Param : Type} `{parameters.Renderable Param}.

Record t := {
  name : string;
  geogcs : GeogCS.t num Param;
  proj : Projection.t;
  params : list Param;
  unit : Param;
  twin_ax : directions.Direction * directions.Direction }.

(** [__init__(self, name, geogcs, proj, params, unit, twin_ax=None)] *)
Definition init (name : string) (geogcs : GeogCS.t num Param)
    (proj : Projection.t) (params : list Param) (unit : Param)
    (twin_ax : option (directions.Direction * directions.Direction)) : t :=
  let twin_ax :=
    match twin_ax with
    | None => (directions.East, directions.North)
    | Some axes => axes
    end in
  {| name := name; geogcs := geogcs; proj := proj; params := params;
     unit := unit; twin_ax := twin_ax |}.

(** The local variable [string] is built up by successive [+=]. *)
Definition to_proj4 (self : t) : string :=
  let string :=
    Projection.to_proj4 (proj self) ++ " " ++ GeogCS.to_proj4 (geogcs self) ++ " " in
  let string := string ++ join " " (map parameters.to_proj4 (params self)) in
  let string := string ++ (" " ++ parameters.to_proj4 (unit self)) in
  let string :=
    string ++ (((" +axis=" ++ directions.proj4 (fst (twin_ax self)))
                  ++ directions.proj4 (snd (twin_ax self))) ++ "u") in
  string.

Definition to_ogc_wkt (self : t) : string :=
  let string :=
    "PROJCS[" ++ dquote ++ name self ++ dquote
      ++ ", " ++ GeogCS.to_ogc_wkt (geogcs self)
      ++ ", " ++ Projection.to_ogc_wkt (proj self) ++ ", " in
  let string := string ++ join ", " (map parameters.to_ogc_wkt (params self)) in
  let string := string ++ (", " ++ parameters.to_ogc_wkt (unit self)) in
  let string :=
    string ++ (", AXIS[" ++ dquote ++ "X" ++ dquote ++ ", "
                 ++ directions.ogc_wkt (fst (twin_ax self))
                 ++ "], AXIS[" ++ dquote ++ "Y" ++ dquote ++ ", "
                 ++ directions.ogc_wkt (snd (twin_ax self)) ++ "]]") in
  string.

Definition to_esri_wkt (self : t) : string :=
  let string :=
    "PROJCS[" ++ dquote ++ name self ++ dquote
      ++ ", " ++ GeogCS.to_esri_wkt (geogcs self)
      ++ ", " ++ Projection.to_esri_wkt (proj self) ++ ", " in
  let string := string ++ join ", " (map parameters.to_esri_wkt (params self)) in
  let string := string ++ (", " ++ parameters.to_esri_wkt (unit self)) in
  let string :=
    string ++ (", AXIS[" ++ dquote ++ "X" ++ dquote ++ ", "
                 ++ directions.esri_wkt (fst (twin_ax self))
                 ++ "], AXIS[" ++ dquote ++ "Y" ++ dquote ++ ", "
                 ++ directions.esri_wkt (snd (twin_ax self)) ++ "]]") in
  string.

End ProjCS.
Arguments t num Param : clear implicits.
End ProjCS.

Module CRS.
Section CRS.
Context {num : Type} `{Str num} `{directions.Catalog}
  {Param : Type} `{parameters.Renderable Param}.

(** Any Python object that is neither a [ProjCS] nor a [GeogCS], seen
    through what calling its [to_ogc_wkt()] and [to_esri_wkt()] gives:
    the value returned, or the exception raised (an [AttributeError]
    when the object has no such method). *)
Record object := {
  call_to_ogc_wkt : outcome value;
  call_to_esri_wkt : outcome value }.

(** What [self.toplevel] holds, by the [isinstance] tests of [to_proj4]. *)
Inductive root :=
| IsProjCS (cs : ProjCS.t num Param)
| IsGeogCS (cs : GeogCS.t num Param)
| IsOther (o : object).

Record t := { toplevel : root }.

(** [__init__(self, toplevel)] *)
Definition init (toplevel : root) : t := {| toplevel := toplevel |}.

(** [None] is the [None] that Python returns when the body falls off its
    end without reaching a [return]. *)
Definition to_proj4 (self : t) : option string :=
  match toplevel self with
  | IsProjCS cs => Some (ProjCS.to_proj4 cs ++ " +no_defs")
  | IsGeogCS cs => Some ("+proj=longlat " ++ GeogCS.to_proj4 cs ++ " +no_defs")
  | IsOther _ => None
  end.

Definition to_ogc_wkt (self : t) : outcome string :=
  match toplevel self with
  | IsProjCS cs => Returns (ProjCS.to_ogc_wkt cs)
  | IsGeogCS cs => Returns (GeogCS.to_ogc_wkt cs)
  | IsOther o =>
      match call_to_ogc_wkt o with
      | Returns v => format_s v
      | Raises e => Raises e
      end
  end.

Definition to_esri_wkt (self : t) : outcome string :=
  match toplevel self with
  | IsProjCS cs => Returns (ProjCS.to_esri_wkt cs)
  | IsGeogCS cs => Returns (GeogCS.to_esri_wkt cs)
  | IsOther o =>
      match call_to_esri_wkt o with
      | Returns v => format_s v
      | Raises e => Raises e
      end
  end.

End CRS.
Arguments root num Param : clear implicits.
Arguments t num Param : clear implicits.
End CRS.

(** ** Tokens of a PROJ string

    The vocabulary in which the renders are specified: occurrence of a
    token in a string, and the strings a render is assembled from. *)

Module Tokens.

(** [c in s] for a character [c]. *)
Fixpoint has_char (c : ascii) (s : string) : bool :=
  match s with
  | EmptyString => false
  | String b s' => (c =? b)%char || has_char c s'
  end.

(** [s.startswith(p)]. *)
Fixpoint startswith (p s : string) : bool :=
  match p, s with
  | EmptyString, _ => true
  | String _ _, EmptyString => false
  | String a p', String b s' => (a =? b)%char && startswith p' s'
  end.

(** [p in s]: the token [p] occurs somewhere in [s]. *)
Fixpoint contains (p s : string) : bool :=
  startswith p s ||
  match s with
  | EmptyString => false
  | String _ s' => contains p s'
  end.

(** [s.endswith(p)]. *)
Fixpoint endswith (p s : string) : bool :=
  (s =? p) ||
  match s with
  | EmptyString => false
  | String _ s' => endswith p s'
  end.

(** [p] and [l] differ at a position that both have: [p] cannot start
    where [l] starts, whatever follows [l]. *)
Fixpoint clash (p l : string) : bool :=
  match p, l with
  | String a p', String b l' => if (a =? b)%char then clash p' l' else true
  | _, _ => false
  end.

(** [p] cannot start at any position of the literal [l]. *)
Fixpoint apart (p l : string) : bool :=
  match l with
  | EmptyString => true
  | String _ l' => clash p l && apart p l'
  end.

(** The first character of a token. *)
Definition head (p : string) : option ascii :=
  match p with
  | EmptyString => None
  | String a _ => Some a
  end.

End Tokens.
Import Tokens.

(** ** The parts of a PROJ render

    The identifiers, printed numbers and opaque renders from which the PROJ
    render of a container is assembled; a token can come into a render only
    with one of them or with a literal of containers.py. *)

Section Parts.
Context {num : Type} `{Str num} {Param : Type} `{parameters.Renderable Param}.

Definition Ellipsoid_parts (e : Ellipsoid.t num) : list string :=
  [ str (ellipsoids.proj4 (Ellipsoid.name e));
    str (Ellipsoid.semimaj_ax e);
    str (Ellipsoid.inv_flat e) ].

Definition Datum_parts (d : Datum.t num Param) : list string :=
  str (datums.proj4 (Datum.name d))
    :: Ellipsoid_parts (Datum.ellips d)
    ++ match Datum.datumshift d with
       | Some shift => [parameters.to_proj4 shift]
       | None => []
       end.

Definition GeogCS_parts (g : GeogCS.t num Param) : list string :=
  Datum_parts (GeogCS.datum g)
    ++ [ parameters.to_proj4 (GeogCS.prime_mer g);
         parameters.to_proj4 (GeogCS.angunit g) ].

Definition ProjCS_parts (p : ProjCS.t num Param) : list string :=
  str (projections.proj4 (Projection.value (ProjCS.proj p)))
    :: GeogCS_parts (ProjCS.geogcs p)
    ++ map parameters.to_proj4 (ProjCS.params p)
    ++ [ parameters.to_proj4 (ProjCS.unit p) ].

(** No part holds the token. *)
Definition free_of (tok : string) (parts : list string) : bool :=
  negb (existsb (contains tok) parts).

End Parts.

(** ** Renders as calls on an object

    [ProjCS.__init__] stores the [params] it is given as they are, and
    each of the three renders of a ProjCS traverses [self.params] once (the
    generator expression given to [join]).  A list is traversed from its
    start every time; a one-shot iterator (a generator, say) gives what it
    has left and has nothing left afterwards.  No render assigns to an
    attribute, and nothing else it reads can be used up.  A render is
    therefore a step from the object to the value returned and the object
    afterwards. *)

Inductive iterable (A : Type) :=
| AsList (items : list A)
| AsIterator (remaining : list A).

Arguments AsList {A} items.
Arguments AsIterator {A} remaining.

(** One traversal [for x in it]: the elements met, and [it] afterwards. *)
Definition traverse {A : Type} (it : iterable A) : list A * iterable A :=
  match it with
  | AsList items => (items, AsList items)
  | AsIterator remaining => (remaining, AsIterator [])
  end.

(** What a traversal would meet. *)
Definition elements {A : Type} (it : iterable A) : list A := fst (traverse it).


Module Stateful.
Section Stateful.
Context {num : Type} `{Str num} {Param : Type} `{parameters.Renderable Param}.

(** A ProjCS object: the attributes set by [ProjCS.__init__]. *)
Record projcs := {
  name : string;
  geogcs : GeogCS.t num Param;
  proj : Projection.t;
  params : iterable Param;
  unit : Param;
  twin_ax : directions.Direction * directions.Direction }.

(** The object with [params] as a traversal left it. *)
Definition after (self : projcs) (rest : iterable Param) : projcs :=
  {| name := name self; geogcs := geogcs self; proj := proj self;
     params := rest; unit := unit self; twin_ax := twin_ax self |}.

(** The ProjCS that a render traversing [params] now would see. *)
Definition seen (self : projcs) : ProjCS.t num Param :=
  {| ProjCS.name := name self; ProjCS.geogcs := geogcs self;
     ProjCS.proj := proj self; ProjCS.params := elements (params self);
     ProjCS.unit := unit self; ProjCS.twin_ax := twin_ax self |}.

(** [ProjCS.to_proj4], statement by statement. *)
Definition to_proj4 (self : projcs) : string * projcs :=
  let string :=
    Projection.to_proj4 (proj self) ++ " " ++ GeogCS.to_proj4 (geogcs self) ++ " " in
  let (met, rest) := traverse (params self) in
  let string := string ++ join " " (map parameters.to_proj4 met) in
  let string := string ++ (" " ++ parameters.to_proj4 (unit self)) in
  let string :=
    string ++ (((" +axis=" ++ directions.proj4 (fst (twin_ax self)))
                  ++ directions.proj4 (snd (twin_ax self))) ++ "u") in
  (string, after self rest).

(** [ProjCS.to_ogc_wkt], statement by statement. *)
Definition to_ogc_wkt (self : projcs) : string * projcs :=
  let string :=
    "PROJCS[" ++ dquote ++ name self ++ dquote
      ++ ", " ++ GeogCS.to_ogc_wkt (geogcs self)
      ++ ", " ++ Projection.to_ogc_wkt (proj self) ++ ", " in
  let (met, rest) := traverse (params self) in
  let string := string ++ join ", " (map parameters.to_ogc_wkt met) in
  let string := string ++ (", " ++ parameters.to_ogc_wkt (unit self)) in
  let string :=
    string ++ (", AXIS[" ++ dquote ++ "X" ++ dquote ++ ", "
                 ++ directions.ogc_wkt (fst (twin_ax self))
                 ++ "], AXIS[" ++ dquote ++ "Y" ++ dquote ++ ", "
                 ++ directions.ogc_wkt (snd (twin_ax self)) ++ "]]") in
  (string, after self rest).

(** [ProjCS.to_esri_wkt], statement by statement. *)
Definition to_esri_wkt (self : projcs) : string * projcs :=
  let string :=
    "PROJCS[" ++ dquote ++ name self ++ dquote
      ++ ", " ++ GeogCS.to_esri_wkt (geogcs self)
      ++ ", " ++ Projection.to_esri_wkt (proj self) ++ ", " in
  let (met, rest) := traverse (params self) in
  let string := string ++ join ", " (map parameters.to_esri_wkt met) in
  let string := string ++ (", " ++ parameters.to_esri_wkt (unit self)) in
  let string :=
    string ++ (", AXIS[" ++ dquote ++ "X" ++ dquote ++ ", "
                 ++ directions.esri_wkt (fst (twin_ax self))
                 ++ "], AXIS[" ++ dquote ++ "Y" ++ dquote ++ ", "
                 ++ directions.esri_wkt (snd (twin_ax self)) ++ "]]") in
  (string, after self rest).

(** A CRS tree: a CRS object whose root is one of the two containers. *)
Inductive crs :=
| Projected (cs : projcs)
| Geographic (cs : GeogCS.t num Param).






End Stateful.
Arguments projcs num Param : clear implicits.
Arguments crs num Param : clear implicits.
End Stateful.

(** ** A sample catalogue

    Concrete entries on which the properties below are exercised: numbers
    stand as the text [str] prints for them, and an opaque parameter
    object as its three renders. *)

Module sample.

Record Rendered := { proj4 : string; ogc_wkt : string; esri_wkt : string }.

#[export] Instance Rendered_renderable : parameters.Renderable Rendered :=
  {| parameters.to_proj4 := proj4;
     parameters.to_ogc_wkt := ogc_wkt;
     parameters.to_esri_wkt := esri_wkt |}.

#[export] Instance compass : directions.Catalog :=
  {| directions.East :=
       {| directions.proj4 := "e"; directions.ogc_wkt := "EAST";
          directions.esri_wkt := "EAST" |};
     directions.North :=
       {| directions.proj4 := "n"; directions.ogc_wkt := "NORTH";
          directions.esri_wkt := "NORTH" |} |}.

Definition West : directions.Direction :=
  {| directions.proj4 := "w"; directions.ogc_wkt := "WEST";
     directions.esri_wkt := "WEST" |}.

Definition South : directions.Direction :=
  {| directions.proj4 := "s"; directions.ogc_wkt := "SOUTH";
     directions.esri_wkt := "SOUTH" |}.

Definition WGS84_ellipsoid : ellipsoids.Name string :=
  {| ellipsoids.Unknown := false;
     ellipsoids.proj4 := Some "WGS84";
     ellipsoids.ogc_wkt := "WGS_1984";
     ellipsoids.esri_wkt := "WGS_1984";
     ellipsoids.semimaj_ax := Some "6378137.0";
     ellipsoids.inv_flat := Some "298.257223563" |}.

Definition Unknown_ellipsoid : ellipsoids.Name string :=
  {| ellipsoids.Unknown := true;
     ellipsoids.proj4 := Some "";
     ellipsoids.ogc_wkt := "Unknown";
     ellipsoids.esri_wkt := "Unknown";
     ellipsoids.semimaj_ax := None;
     ellipsoids.inv_flat := None |}.

Definition WGS84_datum : datums.Name :=
  {| datums.Unknown := false;
     datums.proj4 := Some "WGS84";
     datums.ogc_wkt := "WGS_1984";
     datums.esri_wkt := "D_WGS_1984" |}.

Definition Robinson : projections.Name :=
  {| projections.proj4 := Some "robin";
     projections.ogc_wkt := "Robinson";
     projections.esri_wkt := "Robinson" |}.

Definition towgs84 : Rendered :=
  {| proj4 := "+towgs84=0,0,0";
     ogc_wkt := "TOWGS84[0, 0, 0]";
     esri_wkt := "TOWGS84[0, 0, 0]" |}.

Definition greenwich : Rendered :=
  {| proj4 := "+pm=0.0";
     ogc_wkt := "PRIMEM[Greenwich, 0.0]";
     esri_wkt := "PRIMEM[Greenwich, 0.0]" |}.

Definition degree : Rendered :=
  {| proj4 := "+to_degree=0.0174532925199433";
     ogc_wkt := "UNIT[degree, 0.0174532925199433]";
     esri_wkt := "UNIT[Degree, 0.0174532925199433]" |}.

Definition metre : Rendered :=
  {| proj4 := "+to_meter=1.0";
     ogc_wkt := "UNIT[Meters, 1.0]";
     esri_wkt := "UNIT[Meter, 1.0]" |}.

Definition lon_0 : Rendered :=
  {| proj4 := "+lon_0=0.0";
     ogc_wkt := "PARAMETER[Central_Meridian, 0.0]";
     esri_wkt := "PARAMETER[Central_Meridian, 0.0]" |}.

Definition x_0 : Rendered :=
  {| proj4 := "+x_0=0.0";
     ogc_wkt := "PARAMETER[false_easting, 0.0]";
     esri_wkt := "PARAMETER[False_Easting, 0.0]" |}.

Definition y_0 : Rendered :=
  {| proj4 := "+y_0=0.0";
     ogc_wkt := "PARAMETER[false_northing, 0.0]";
     esri_wkt := "PARAMETER[False_Northing, 0.0]" |}.

Definition ellipsoid : Ellipsoid.t string :=
  Ellipsoid.init WGS84_ellipsoid None None.

Definition unknown_ellipsoid : Ellipsoid.t string :=
  Ellipsoid.init Unknown_ellipsoid (Some "6378137.0") (Some "298.257223563").

Definition datum : Datum.t string Rendered :=
  Datum.init WGS84_datum ellipsoid None.

Definition shifted_datum : Datum.t string Rendered :=
  Datum.init WGS84_datum ellipsoid (Some towgs84).

Definition geogcs : GeogCS.t string Rendered :=
  GeogCS.init "WGS 84" datum greenwich degree None.

Definition projcs : ProjCS.t string Rendered :=
  ProjCS.init "World Robinson" geogcs (Projection.init Robinson)
    [lon_0; x_0; y_0] metre None.

(** The sample ProjCS as an object holding the list of its parameters,
    and the same with a one-shot iterator over them. *)
Definition projcs_object : Stateful.projcs string Rendered :=
  {| Stateful.name := "World Robinson"; Stateful.geogcs := geogcs;
     Stateful.proj := Projection.init Robinson;
     Stateful.params := AsList [lon_0; x_0; y_0];
     Stateful.unit := metre;
     Stateful.twin_ax := (directions.East, directions.North) |}.

Definition projcs_generator : Stateful.projcs string Rendered :=
  Stateful.after projcs_object (AsIterator [lon_0; x_0; y_0]).

End sample.

(** ** Access paths and character counts

    Vocabulary for the properties that relate the renders of a tree to
    the renders of its components. *)

Section Paths.
Context {num : Type} {Param : Type}.

(** [self.toplevel] itself when it is a GeogCS, [self.toplevel.geogcs]
    when it is a ProjCS. *)
Definition root_geogcs (r : CRS.root num Param) : option (GeogCS.t num Param) :=
  match r with
  | CRS.IsProjCS cs => Some (ProjCS.geogcs cs)
  | CRS.IsGeogCS cs => Some cs
  | CRS.IsOther _ => None
  end.

End Paths.

(** [s.count(c)] for a character [c]. *)
Fixpoint count_char (c : ascii) (s : string) : nat :=
  match s with
  | EmptyString => 0
  | String b s' => (if (c =? b)%char then 1 else 0) + count_char c s'
  end.

(** As many opening as closing square brackets. *)
Definition balanced (s : string) : bool :=
  Nat.eqb (count_char "[" s) (count_char "]" s).

(** ** Relabelling the catalogue entries of a tree

    A tree with every catalogue entry (axis direction, datum name,
    ellipsoid name, projection name) and every coordinate-system name
    replaced, the numbers and the parameter objects left as they are:
    the means to say which attributes a render reads. *)

Section Relabel.
Context {num : Type} {Param : Type}.

Record relabelling := {
  on_direction : directions.Direction -> directions.Direction;
  on_datum : datums.Name -> datums.Name;
  on_ellipsoid : ellipsoids.Name num -> ellipsoids.Name num;
  on_projection : projections.Name -> projections.Name;
  on_cs_name : string -> string }.

Variable r : relabelling.

Definition relabel_Ellipsoid (e : Ellipsoid.t num) : Ellipsoid.t num :=
  {| Ellipsoid.name := on_ellipsoid r (Ellipsoid.name e);
     Ellipsoid.semimaj_ax := Ellipsoid.semimaj_ax e;
     Ellipsoid.inv_flat := Ellipsoid.inv_flat e |}.

Definition relabel_Datum (d : Datum.t num Param) : Datum.t num Param :=
  {| Datum.name := on_datum r (Datum.name d);
     Datum.ellips := relabel_Ellipsoid (Datum.ellips d);
     Datum.datumshift := Datum.datumshift d |}.

Definition relabel_axes (axes : directions.Direction * directions.Direction) :
    directions.Direction * directions.Direction :=
  (on_direction r (fst axes), on_direction r (snd axes)).

Definition relabel_GeogCS (g : GeogCS.t num Param) : GeogCS.t num Param :=
  {| GeogCS.name := on_cs_name r (GeogCS.name g);
     GeogCS.datum := relabel_Datum (GeogCS.datum g);
     GeogCS.prime_mer := GeogCS.prime_mer g;
     GeogCS.angunit := GeogCS.angunit g;
     GeogCS.twin_ax := relabel_axes (GeogCS.twin_ax g) |}.

Definition relabel_Projection (pr : Projection.t) : Projection.t :=
  {| Projection.value := on_projection r (Projection.value pr) |}.

Definition relabel_ProjCS (p : ProjCS.t num Param) : ProjCS.t num Param :=
  {| ProjCS.name := on_cs_name r (ProjCS.name p);
     ProjCS.geogcs := relabel_GeogCS (ProjCS.geogcs p);
     ProjCS.proj := relabel_Projection (ProjCS.proj p);
     ProjCS.params := ProjCS.params p;
     ProjCS.unit := ProjCS.unit p;
     ProjCS.twin_ax := relabel_axes (ProjCS.twin_ax p) |}.

Definition relabel_CRS (crs : CRS.t num Param) : CRS.t num Param :=
  {| CRS.toplevel :=
       match CRS.toplevel crs with
       | CRS.IsProjCS cs => CRS.IsProjCS (relabel_ProjCS cs)
       | CRS.IsGeogCS cs => CRS.IsGeogCS (relabel_GeogCS cs)
       | CRS.IsOther o => CRS.IsOther o
       end |}.

(** The relabelling leaves every WKT identifier and every
    coordinate-system name as it is. *)
Definition keeps_wkt : Prop :=
  (forall d, directions.ogc_wkt (on_direction r d) = directions.ogc_wkt d
             /\ directions.esri_wkt (on_direction r d) = directions.esri_wkt d)
  /\ (forall n, datums.ogc_wkt (on_datum r n) = datums.ogc_wkt n
                /\ datums.esri_wkt (on_datum r n) = datums.esri_wkt n)
  /\ (forall n, ellipsoids.ogc_wkt (on_ellipsoid r n) = ellipsoids.ogc_wkt n
                /\ ellipsoids.esri_wkt (on_ellipsoid r n) = ellipsoids.esri_wkt n)
  /\ (forall n, projections.ogc_wkt (on_projection r n) = projections.ogc_wkt n
                /\ projections.esri_wkt (on_projection r n) = projections.esri_wkt n)
  /\ (forall s, on_cs_name r s = s).

(** The relabelling leaves every PROJ identifier and every [Unknown]
    class as it is. *)
Definition keeps_proj4 : Prop :=
  (forall d, directions.proj4 (on_direction r d) = directions.proj4 d)
  /\ (forall n, datums.proj4 (on_datum r n) = datums.proj4 n
                /\ datums.Unknown (on_datum r n) = datums.Unknown n)
  /\ (forall n, ellipsoids.proj4 (on_ellipsoid r n) = ellipsoids.proj4 n
                /\ ellipsoids.Unknown (on_ellipsoid r n) = ellipsoids.Unknown n)
  /\ (forall n, projections.proj4 (on_projection r n) = projections.proj4 n).

End Relabel.
Arguments relabelling num : clear implicits.

(** Three relabellings: one that wipes what only the PROJ render reads,
    one that wipes what only the WKT renders read, and one that exchanges
    the OGC and the ESRI identifier of every entry. *)

Section Relabellings.
Context {num : Type}.

Definition forget_proj4 : relabelling num :=
  {| on_direction d :=
       {| directions.proj4 := ""; directions.ogc_wkt := directions.ogc_wkt d;
          directions.esri_wkt := directions.esri_wkt d |};
     on_datum n :=
       {| datums.Unknown := true; datums.proj4 := None;
          datums.ogc_wkt := datums.ogc_wkt n; datums.esri_wkt := datums.esri_wkt n |};
     on_ellipsoid n :=
       {| ellipsoids.Unknown := true; ellipsoids.proj4 := None;
          ellipsoids.ogc_wkt := ellipsoids.ogc_wkt n;
          ellipsoids.esri_wkt := ellipsoids.esri_wkt n;
          ellipsoids.semimaj_ax := None; ellipsoids.inv_flat := None |};
     on_projection n :=
       {| projections.proj4 := None; projections.ogc_wkt := projections.ogc_wkt n;
          projections.esri_wkt := projections.esri_wkt n |};
     on_cs_name s := s |}.

Definition forget_wkt : relabelling num :=
  {| on_direction d :=
       {| directions.proj4 := directions.proj4 d; directions.ogc_wkt := "";
          directions.esri_wkt := "" |};
     on_datum n :=
       {| datums.Unknown := datums.Unknown n; datums.proj4 := datums.proj4 n;
          datums.ogc_wkt := ""; datums.esri_wkt := "" |};
     on_ellipsoid n :=
       {| ellipsoids.Unknown := ellipsoids.Unknown n;
          ellipsoids.proj4 := ellipsoids.proj4 n;
          ellipsoids.ogc_wkt := ""; ellipsoids.esri_wkt := "";
          ellipsoids.semimaj_ax := None; ellipsoids.inv_flat := None |};
     on_projection n :=
       {| projections.proj4 := projections.proj4 n; projections.ogc_wkt := "";
          projections.esri_wkt := "" |};
     on_cs_name _ := "" |}.

Definition exchange_wkt : relabelling num :=
  {| on_direction d :=
       {| directions.proj4 := directions.proj4 d;
          directions.ogc_wkt := directions.esri_wkt d;
          directions.esri_wkt := directions.ogc_wkt d |};
     on_datum n :=
       {| datums.Unknown := datums.Unknown n; datums.proj4 := datums.proj4 n;
          datums.ogc_wkt := datums.esri_wkt n; datums.esri_wkt := datums.ogc_wkt n |};
     on_ellipsoid n :=
       {| ellipsoids.Unknown := ellipsoids.Unknown n;
          ellipsoids.proj4 := ellipsoids.proj4 n;
          ellipsoids.ogc_wkt := ellipsoids.esri_wkt n;
          ellipsoids.esri_wkt := ellipsoids.ogc_wkt n;
          ellipsoids.semimaj_ax := ellipsoids.semimaj_ax n;
          ellipsoids.inv_flat := ellipsoids.inv_flat n |};
     on_projection n :=
       {| projections.proj4 := projections.proj4 n;
          projections.ogc_wkt := projections.esri_wkt n;
          projections.esri_wkt := projections.ogc_wkt n |};
     on_cs_name s := s |}.

End Relabellings.

(** A parameter object seen with its two WKT renders exchanged. *)
Definition exchanged {Param : Type} (R : parameters.Renderable Param) :
    parameters.Renderable Param :=
  {| parameters.to_proj4 := @parameters.to_proj4 Param R;
     parameters.to_ogc_wkt := @parameters.to_esri_wkt Param R;
     parameters.to_esri_wkt := @parameters.to_ogc_wkt Param R |}.

(** ** The parts of the WKT renders and the literals of each grammar *)

Section WktParts.
Context {num : Type} `{Str num} {Param : Type} `{parameters.Renderable Param}.

Definition Ellipsoid_ogc_parts (e : Ellipsoid.t num) : list string :=
  [ ellipsoids.ogc_wkt (Ellipsoid.name e);
    str (Ellipsoid.semimaj_ax e);
    str (Ellipsoid.inv_flat e) ].

Definition Ellipsoid_esri_parts (e : Ellipsoid.t num) : list string :=
  [ ellipsoids.esri_wkt (Ellipsoid.name e);
    str (Ellipsoid.semimaj_ax e);
    str (Ellipsoid.inv_flat e) ].

Definition Datum_ogc_parts (d : Datum.t num Param) : list string :=
  datums.ogc_wkt (Datum.name d)
    :: Ellipsoid_ogc_parts (Datum.ellips d)
    ++ match Datum.datumshift d with
       | Some shift => [parameters.to_ogc_wkt shift]
       | None => []
       end.

Definition Datum_esri_parts (d : Datum.t num Param) : list string :=
  datums.esri_wkt (Datum.name d)
    :: Ellipsoid_esri_parts (Datum.ellips d)
    ++ match Datum.datumshift d with
       | Some shift => [parameters.to_esri_wkt shift]
       | None => []
       end.

Definition GeogCS_ogc_parts (g : GeogCS.t num Param) : list string :=
  GeogCS.name g
    :: Datum_ogc_parts (GeogCS.datum g)
    ++ [ parameters.to_ogc_wkt (GeogCS.prime_mer g);
         parameters.to_ogc_wkt (GeogCS.angunit g);
         directions.ogc_wkt (fst (GeogCS.twin_ax g));
         directions.ogc_wkt (snd (GeogCS.twin_ax g)) ].

Definition GeogCS_esri_parts (g : GeogCS.t num Param) : list string :=
  GeogCS.name g
    :: Datum_esri_parts (GeogCS.datum g)
    ++ [ parameters.to_esri_wkt (GeogCS.prime_mer g);
         parameters.to_esri_wkt (GeogCS.angunit g);
         directions.esri_wkt (fst (GeogCS.twin_ax g));
         directions.esri_wkt (snd (GeogCS.twin_ax g)) ].

Definition ProjCS_ogc_parts (p : ProjCS.t num Param) : list string :=
  ProjCS.name p
    :: GeogCS_ogc_parts (ProjCS.geogcs p)
    ++ projections.ogc_wkt (Projection.value (ProjCS.proj p))
    :: map parameters.to_ogc_wkt (ProjCS.params p)
    ++ [ parameters.to_ogc_wkt (ProjCS.unit p);
         directions.ogc_wkt (fst (ProjCS.twin_ax p));
         directions.ogc_wkt (snd (ProjCS.twin_ax p)) ].

Definition ProjCS_esri_parts (p : ProjCS.t num Param) : list string :=
  ProjCS.name p
    :: GeogCS_esri_parts (ProjCS.geogcs p)
    ++ projections.esri_wkt (Projection.value (ProjCS.proj p))
    :: map parameters.to_esri_wkt (ProjCS.params p)
    ++ [ parameters.to_esri_wkt (ProjCS.unit p);
         directions.esri_wkt (fst (ProjCS.twin_ax p));
         directions.esri_wkt (snd (ProjCS.twin_ax p)) ].

(** The parts of the render of whatever [self.toplevel] holds. *)
Definition root_proj4_parts (r : CRS.root num Param) : list string :=
  match r with
  | CRS.IsProjCS cs =>
      ProjCS_parts cs
        ++ [ directions.proj4 (fst (ProjCS.twin_ax cs));
             directions.proj4 (snd (ProjCS.twin_ax cs)) ]
  | CRS.IsGeogCS cs => GeogCS_parts cs
  | CRS.IsOther _ => []
  end.

Definition root_ogc_parts (r : CRS.root num Param) : list string :=
  match r with
  | CRS.IsProjCS cs => ProjCS_ogc_parts cs
  | CRS.IsGeogCS cs => GeogCS_ogc_parts cs
  | CRS.IsOther _ => []
  end.

Definition root_esri_parts (r : CRS.root num Param) : list string :=
  match r with
  | CRS.IsProjCS cs => ProjCS_esri_parts cs
  | CRS.IsGeogCS cs => GeogCS_esri_parts cs
  | CRS.IsOther _ => []
  end.

End WktParts.

(** Every character that a string literal of a [to_proj4] method holds. *)
Definition proj4_literals : string :=
  "+proj=longlat +no_defs +datum= +ellps= +a= +f= +axis=u".

(** Every character that a string literal of a [to_ogc_wkt] or
    [to_esri_wkt] method holds. *)
Definition wkt_literals : string :=
  "PROJCS[GEOGCS[DATUM[SPHEROID[PROJECTION[AXIS[LonLatXY], " ++ dquote.

(** Every character of [small] is a character of [big]. *)
Fixpoint included (small big : string) : bool :=
  match small with
  | EmptyString => true
  | String c s => has_char c big && included s big
  end.

(** * Properties *)

(** ** Occurrences of a token in a concatenation *)

Lemma append_assoc (a b c : string) : (a ++ b) ++ c = a ++ (b ++ c).
Proof.
  induction a as [|x a IH]; simpl; [reflexivity | now rewrite IH].
Qed.

Lemma has_char_app (c : ascii) (a b : string) :
  has_char c (a ++ b) = has_char c a || has_char c b.
Proof.
  induction a as [|x a IH]; simpl; [reflexivity|].
  now rewrite IH, orb_assoc.
Qed.

(** A token that lacks the separator [c] starts in [x ++ c ++ b] exactly
    when it starts in [x]. *)
Lemma startswith_app_sep (c : ascii) (p x b : string) :
  has_char c p = false ->
  startswith p (x ++ String c b) = startswith p x.
Proof.
  revert x; induction p as [|a p IH]; intros x Hp.
  - now destruct x.
  - simpl in Hp. apply orb_false_iff in Hp as [Hac Hp].
    destruct x as [|d x]; simpl.
    + rewrite Ascii.eqb_sym, Hac. reflexivity.
    + now rewrite IH.
Qed.

(** Occurrences of such a token never straddle the separator. *)
Lemma contains_app_sep (c : ascii) (p a b : string) :
  has_char c p = false ->
  contains p (a ++ String c b) = contains p a || contains p b.
Proof.
  intros Hp. induction a as [|d a IH].
  - change ("" ++ String c b) with (String c b).
    cbn [contains].
    rewrite <- (startswith_app_sep c p "" b Hp).
    now rewrite orb_false_r.
  - change (String d a ++ String c b) with (String d (a ++ String c b)).
    cbn [contains].
    change (String d (a ++ String c b)) with (String d a ++ String c b).
    rewrite startswith_app_sep by assumption.
    now rewrite IH, orb_assoc.
Qed.

Lemma clash_startswith (p l x : string) :
  clash p l = true -> startswith p (l ++ x) = false.
Proof.
  revert l; induction p as [|a p IH]; intros [|b l]; simpl; try discriminate.
  destruct (a =? b)%char; [apply IH | reflexivity].
Qed.

(** A token that cannot start inside the literal [l] occurs in [l ++ x]
    exactly when it occurs in [x]. *)
Lemma contains_apart (p l x : string) :
  apart p l = true -> contains p (l ++ x) = contains p x.
Proof.
  induction l as [|b l IH]; intros Hl; [reflexivity|].
  cbn [apart] in Hl. apply andb_true_iff in Hl as [Hc Hl].
  change (String b l ++ x) with (String b (l ++ x)).
  cbn [contains].
  change (String b (l ++ x)) with (String b l ++ x).
  now rewrite (clash_startswith _ _ _ Hc), IH.
Qed.

(** A token occurs only where its first character does. *)
Lemma contains_head (p x : string) (c : ascii) :
  head p = Some c -> has_char c x = false -> contains p x = false.
Proof.
  destruct p as [|a p]; [discriminate|]. intros [= ->].
  induction x as [|d x IH]; [reflexivity|].
  simpl. intros Hx. apply orb_false_iff in Hx as [Hcd Hx].
  now rewrite Hcd, IH.
Qed.

Lemma contains_join (c : ascii) (p : string) (l : list string) :
  has_char c p = false -> p <> "" ->
  contains p (join (String c "") l) = existsb (contains p) l.
Proof.
  intros Hp Hne. induction l as [|x l IH].
  - destruct p; [contradiction | reflexivity].
  - destruct l as [|y l].
    + simpl. now rewrite orb_false_r.
    + change (join (String c "") (x :: y :: l))
        with (x ++ String c (join (String c "") (y :: l))).
      rewrite contains_app_sep by assumption.
      now rewrite IH.
Qed.


Lemma contains_app_space (p a b : string) :
  has_char " " p = false ->
  contains p (a ++ " " ++ b) = contains p a || contains p b.
Proof. exact (contains_app_sep " " p a b). Qed.

Lemma startswith_app (l x : string) : startswith l (l ++ x) = true.
Proof.
  induction l as [|a l IH]; [reflexivity|].
  simpl. now rewrite Ascii.eqb_refl.
Qed.

Lemma endswith_app (a p : string) : endswith p (a ++ p) = true.
Proof.
  induction a as [|x a IH].
  - destruct p; simpl; [reflexivity|].
    now rewrite Ascii.eqb_refl, String.eqb_refl.
  - simpl. rewrite IH. apply orb_true_r.
Qed.

(** The token [+proj=longlat] occurs in [+proj=<x>] only when [x] starts
    with [longlat] or holds the whole token itself. *)
Lemma contains_proj_longlat (x : string) :
  contains "+proj=longlat" ("+proj=" ++ x)
  = startswith "longlat" x || contains "+proj=longlat" x.
Proof.
  change ("+proj=" ++ x)
    with (String "+" (String "p" (String "r" (String "o" (String "j" (String "=" x)))))).
  cbn [contains]. cbn [startswith Ascii.eqb Bool.eqb andb orb].
  reflexivity.
Qed.

Lemma free_of_cons (tok x : string) (l : list string) :
  free_of tok (x :: l) = true <-> contains tok x = false /\ free_of tok l = true.
Proof.
  unfold free_of. simpl. rewrite negb_true_iff, orb_false_iff, negb_true_iff.
  reflexivity.
Qed.

Lemma free_of_app (tok : string) (l1 l2 : list string) :
  free_of tok (l1 ++ l2) = true <-> free_of tok l1 = true /\ free_of tok l2 = true.
Proof.
  unfold free_of. rewrite existsb_app, negb_orb. apply andb_true_iff.
Qed.


(** ** The renders of containers.py *)

Section Properties.
Context {num : Type} `{Str num} `{directions.Catalog}
  {Param : Type} `{parameters.Renderable Param}.

(** An attribute holds no PROJ identifier exactly when it is [None] or the
    empty string. *)
Lemma truthy_false (v : option string) :
  truthy v = false <-> v = None \/ v = Some "".
Proof.
  destruct v as [s|]; simpl.
  - rewrite negb_false_iff, String.eqb_eq. split.
    + intros ->. now right.
    + intros [|[= ->]]; [discriminate | reflexivity].
  - split; [now left | reflexivity].
Qed.

Lemma truthy_Some (id : string) : id <> "" -> truthy (Some id) = true.
Proof.
  intros Hid. simpl. now rewrite negb_true_iff, String.eqb_neq.
Qed.

(** *** Ellipsoid *)

(** The two forms of [Ellipsoid.to_proj4]: the first two branches of the
    source return the same text. *)
Lemma Ellipsoid_to_proj4_cases (e : Ellipsoid.t num) :
  let numeric :=
    "+a=" ++ str (Ellipsoid.semimaj_ax e) ++ " +f=" ++ str (Ellipsoid.inv_flat e) in
  Ellipsoid.to_proj4 e =
    if ellipsoids.Unknown (Ellipsoid.name e)
       || negb (truthy (ellipsoids.proj4 (Ellipsoid.name e)))
    then numeric
    else "+ellps=" ++ str (ellipsoids.proj4 (Ellipsoid.name e)) ++ " " ++ numeric.
Proof.
  unfold Ellipsoid.to_proj4.
  destruct (ellipsoids.Unknown _); [reflexivity|].
  destruct (truthy _); reflexivity.
Qed.

Lemma numeric_form_free (tok a f : string) :
  has_char " " tok = false ->
  apart tok "+a=" = true -> apart tok "+f=" = true ->
  contains tok a = false -> contains tok f = false ->
  contains tok ("+a=" ++ a ++ " +f=" ++ f) = false.
Proof.
  intros Hsp Ha Hf Hax Hfl.
  rewrite <- append_assoc.
  change (" +f=" ++ f) with (" " ++ "+f=" ++ f).
  rewrite contains_app_space by assumption.
  now rewrite !contains_apart, Hax, Hfl by assumption.
Qed.

(** An ellipsoid render holds a token only if one of its parts does,
    for a token that can start in none of the literals. *)
Lemma Ellipsoid_to_proj4_free (tok : string) (e : Ellipsoid.t num) :
  has_char " " tok = false ->
  apart tok "+ellps=" = true -> apart tok "+a=" = true -> apart tok "+f=" = true ->
  free_of tok (Ellipsoid_parts e) = true ->
  contains tok (Ellipsoid.to_proj4 e) = false.
Proof.
  intros Hsp He Ha Hf Hparts.
  unfold Ellipsoid_parts in Hparts.
  apply free_of_cons in Hparts as [Hid Hparts].
  apply free_of_cons in Hparts as [Hax Hparts].
  apply free_of_cons in Hparts as [Hfl _].
  rewrite Ellipsoid_to_proj4_cases. cbv zeta.
  pose proof (numeric_form_free tok _ _ Hsp Ha Hf Hax Hfl) as Hnum.
  destruct (_ || _); [exact Hnum|].
  rewrite <- append_assoc, contains_app_space by assumption.
  now rewrite contains_apart, Hid, Hnum by assumption.
Qed.

(** *** Datum *)

Lemma Datum_to_proj4_cases (d : Datum.t num Param) :
  let e := Ellipsoid.to_proj4 (Datum.ellips d) in
  Datum.to_proj4 d =
    match Datum.datumshift d with
    | Some shift => e ++ " " ++ parameters.to_proj4 shift
    | None =>
        if datums.Unknown (Datum.name d)
           || negb (truthy (datums.proj4 (Datum.name d)))
        then e
        else "+datum=" ++ str (datums.proj4 (Datum.name d)) ++ " " ++ e
    end.
Proof.
  unfold Datum.to_proj4.
  destruct (Datum.datumshift d); [reflexivity|].
  destruct (datums.Unknown _); [reflexivity|].
  destruct (truthy _); reflexivity.
Qed.

Lemma Datum_to_proj4_free (tok : string) (d : Datum.t num Param) :
  has_char " " tok = false ->
  apart tok "+datum=" = true -> apart tok "+ellps=" = true ->
  apart tok "+a=" = true -> apart tok "+f=" = true ->
  free_of tok (Datum_parts d) = true ->
  contains tok (Datum.to_proj4 d) = false.
Proof.
  intros Hsp Hd He Ha Hf Hparts.
  unfold Datum_parts in Hparts.
  apply free_of_cons in Hparts as [Hid Hparts].
  apply free_of_app in Hparts as [Hell Hshift].
  pose proof (Ellipsoid_to_proj4_free tok _ Hsp He Ha Hf Hell) as HE.
  rewrite Datum_to_proj4_cases. cbv zeta.
  destruct (Datum.datumshift d) as [shift|].
  - apply free_of_cons in Hshift as [Hshift _].
    now rewrite contains_app_space, HE, Hshift by assumption.
  - destruct (_ || _); [exact HE|].
    rewrite <- append_assoc, contains_app_space by assumption.
    now rewrite contains_apart, Hid, HE by assumption.
Qed.

(** *** GeogCS *)

Lemma GeogCS_to_proj4_free (tok : string) (g : GeogCS.t num Param) :
  has_char " " tok = false ->
  apart tok "+datum=" = true -> apart tok "+ellps=" = true ->
  apart tok "+a=" = true -> apart tok "+f=" = true ->
  free_of tok (GeogCS_parts g) = true ->
  contains tok (GeogCS.to_proj4 g) = false.
Proof.
  intros Hsp Hd He Ha Hf Hparts.
  unfold GeogCS_parts in Hparts.
  apply free_of_app in Hparts as [Hdatum Hparts].
  apply free_of_cons in Hparts as [Hpm Hparts].
  apply free_of_cons in Hparts as [Hau _].
  unfold GeogCS.to_proj4.
  rewrite !contains_app_space by assumption.
  now rewrite (Datum_to_proj4_free tok _ Hsp Hd He Ha Hf Hdatum), Hpm, Hau.
Qed.

(** *** ProjCS *)

(** The successive [+=] of [ProjCS.to_proj4], read from left to right. *)
Lemma ProjCS_to_proj4_flat (p : ProjCS.t num Param) :
  ProjCS.to_proj4 p =
    Projection.to_proj4 (ProjCS.proj p)
      ++ " " ++ GeogCS.to_proj4 (ProjCS.geogcs p)
      ++ " " ++ join " " (map parameters.to_proj4 (ProjCS.params p))
      ++ " " ++ parameters.to_proj4 (ProjCS.unit p)
      ++ " +axis=" ++ directions.proj4 (fst (ProjCS.twin_ax p))
      ++ directions.proj4 (snd (ProjCS.twin_ax p)) ++ "u".
Proof.
  unfold ProjCS.to_proj4. cbv zeta.
  now rewrite !append_assoc.
Qed.

Lemma ProjCS_to_ogc_wkt_flat (p : ProjCS.t num Param) :
  ProjCS.to_ogc_wkt p =
    ("PROJCS[" ++ dquote ++ ProjCS.name p ++ dquote
       ++ ", " ++ GeogCS.to_ogc_wkt (ProjCS.geogcs p)
       ++ ", " ++ Projection.to_ogc_wkt (ProjCS.proj p) ++ ", ")
      ++ join ", " (map parameters.to_ogc_wkt (ProjCS.params p))
      ++ (", " ++ parameters.to_ogc_wkt (ProjCS.unit p))
      ++ ", AXIS[" ++ dquote ++ "X" ++ dquote ++ ", "
      ++ directions.ogc_wkt (fst (ProjCS.twin_ax p))
      ++ "], AXIS[" ++ dquote ++ "Y" ++ dquote ++ ", "
      ++ directions.ogc_wkt (snd (ProjCS.twin_ax p)) ++ "]]".
Proof.
  unfold ProjCS.to_ogc_wkt. cbv zeta.
  now rewrite <- !append_assoc.
Qed.

Lemma ProjCS_to_esri_wkt_flat (p : ProjCS.t num Param) :
  ProjCS.to_esri_wkt p =
    ("PROJCS[" ++ dquote ++ ProjCS.name p ++ dquote
       ++ ", " ++ GeogCS.to_esri_wkt (ProjCS.geogcs p)
       ++ ", " ++ Projection.to_esri_wkt (ProjCS.proj p) ++ ", ")
      ++ join ", " (map parameters.to_esri_wkt (ProjCS.params p))
      ++ (", " ++ parameters.to_esri_wkt (ProjCS.unit p))
      ++ ", AXIS[" ++ dquote ++ "X" ++ dquote ++ ", "
      ++ directions.esri_wkt (fst (ProjCS.twin_ax p))
      ++ "], AXIS[" ++ dquote ++ "Y" ++ dquote ++ ", "
      ++ directions.esri_wkt (snd (ProjCS.twin_ax p)) ++ "]]".
Proof.
  unfold ProjCS.to_esri_wkt. cbv zeta.
  now rewrite <- !append_assoc.
Qed.

(** *** The PROJ render of Ellipsoid, Datum and GeogCS *)

(** C2: an ellipsoid whose name is the Unknown sentinel, or whose catalogue
    entry has no PROJ identifier, renders in PROJ exactly as
    [+a=<semimaj_ax> +f=<inv_flat>], with no [+ellps=] token as long as
    neither printed number holds one; every other ellipsoid renders exactly
    as [+ellps=<id> +a=<semimaj_ax> +f=<inv_flat>]; so the two numbers end
    the render in every case. *)
Theorem Ellipsoid_to_proj4_forms (e : Ellipsoid.t num) :
  let nm := Ellipsoid.name e in
  let a := str (Ellipsoid.semimaj_ax e) in
  let f := str (Ellipsoid.inv_flat e) in
  (ellipsoids.Unknown nm = true
     \/ ellipsoids.proj4 nm = None \/ ellipsoids.proj4 nm = Some "" ->
   Ellipsoid.to_proj4 e = "+a=" ++ a ++ " +f=" ++ f
   /\ (contains "+ellps=" a = false -> contains "+ellps=" f = false ->
       contains "+ellps=" (Ellipsoid.to_proj4 e) = false))
  /\ (forall id, ellipsoids.Unknown nm = false ->
        ellipsoids.proj4 nm = Some id -> id <> "" ->
        Ellipsoid.to_proj4 e = "+ellps=" ++ id ++ " +a=" ++ a ++ " +f=" ++ f)
  /\ (exists front, Ellipsoid.to_proj4 e = front ++ "+a=" ++ a ++ " +f=" ++ f).
Proof.
  intros nm a f. rewrite Ellipsoid_to_proj4_cases. cbv zeta. fold nm a f.
  split; [|split].
  - intros Hno.
    assert (Htest : ellipsoids.Unknown nm || negb (truthy (ellipsoids.proj4 nm)) = true).
    { destruct Hno as [-> | Hid]; [reflexivity|].
      apply truthy_false in Hid. rewrite Hid. apply orb_true_r. }
    rewrite Htest. split; [reflexivity|].
    intros Ha Hf. now apply numeric_form_free.
  - intros id Hu Hid Hne.
    now rewrite Hu, Hid, truthy_Some.
  - destruct (_ || _).
    + now exists "".
    + exists ("+ellps=" ++ str (ellipsoids.proj4 nm) ++ " ").
      now rewrite !append_assoc.
Qed.

(** C8 (as amended): the constructor puts the attribute of the catalogue
    entry of the name in place of a semimajor axis, or of an inverse
    flattening, that it is not given, and stores as it is one that it is
    given; it checks nothing, so that after construction a field is [None]
    exactly when its argument was left out and the catalogue entry has no
    default for it, and both fields hold numbers whenever the entry has a
    default for each argument left out. *)
Theorem Ellipsoid_init_fields
    (name : ellipsoids.Name num) (semimaj_ax inv_flat : option num) :
  let e := Ellipsoid.init name semimaj_ax inv_flat in
  Ellipsoid.name e = name
  /\ (semimaj_ax = None -> Ellipsoid.semimaj_ax e = ellipsoids.semimaj_ax name)
  /\ (inv_flat = None -> Ellipsoid.inv_flat e = ellipsoids.inv_flat name)
  /\ (forall x, semimaj_ax = Some x -> Ellipsoid.semimaj_ax e = Some x)
  /\ (forall x, inv_flat = Some x -> Ellipsoid.inv_flat e = Some x)
  /\ (Ellipsoid.semimaj_ax e = None
      <-> semimaj_ax = None /\ ellipsoids.semimaj_ax name = None)
  /\ (Ellipsoid.inv_flat e = None
      <-> inv_flat = None /\ ellipsoids.inv_flat name = None)
  /\ ((semimaj_ax = None -> ellipsoids.semimaj_ax name <> None) ->
      (inv_flat = None -> ellipsoids.inv_flat name <> None) ->
      (exists a, Ellipsoid.semimaj_ax e = Some a)
      /\ (exists f, Ellipsoid.inv_flat e = Some f)).
Proof.
  intros e. unfold e, Ellipsoid.init. cbn.
  split; [reflexivity|].
  split; [now intros ->|].
  split; [now intros ->|].
  split; [now intros x ->|].
  split; [now intros x ->|].
  split; [|split].
  - destruct semimaj_ax as [a|]; cbn.
    + split; [discriminate | now intros [? _]].
    + split; [now intros -> | now intros [_ ->]].
  - destruct inv_flat as [f|]; cbn.
    + split; [discriminate | now intros [? _]].
    + split; [now intros -> | now intros [_ ->]].
  - intros Ha Hf. split.
    + destruct semimaj_ax as [a|]; cbn; [now exists a|].
      destruct (ellipsoids.semimaj_ax name) as [a|]; [now exists a|].
      now destruct Ha.
    + destruct inv_flat as [f|]; cbn; [now exists f|].
      destruct (ellipsoids.inv_flat name) as [f|]; [now exists f|].
      now destruct Hf.
Qed.

(** C1: the PROJ render of a datum, in priority order.  With a datum shift
    it is the ellipsoid's render, a space, then the shift's render,
    whatever the name of the datum, and it holds no [+datum=] token as long
    as no part of the ellipsoid and of the shift holds one.  Without a
    shift it is the ellipsoid's render alone when the name is the Unknown
    sentinel, or when the catalogue entry has no PROJ identifier, and
    [+datum=<id>], a space, then the ellipsoid's render otherwise. *)
Theorem Datum_to_proj4_priority (d : Datum.t num Param) :
  let nm := Datum.name d in
  let e := Ellipsoid.to_proj4 (Datum.ellips d) in
  (forall shift, Datum.datumshift d = Some shift ->
     Datum.to_proj4 d = e ++ " " ++ parameters.to_proj4 shift
     /\ (free_of "+datum=" (Ellipsoid_parts (Datum.ellips d)) = true ->
         contains "+datum=" (parameters.to_proj4 shift) = false ->
         contains "+datum=" (Datum.to_proj4 d) = false))
  /\ (Datum.datumshift d = None -> datums.Unknown nm = true ->
      Datum.to_proj4 d = e)
  /\ (Datum.datumshift d = None -> datums.Unknown nm = false ->
      datums.proj4 nm = None \/ datums.proj4 nm = Some "" ->
      Datum.to_proj4 d = e)
  /\ (forall id, Datum.datumshift d = None -> datums.Unknown nm = false ->
        datums.proj4 nm = Some id -> id <> "" ->
        Datum.to_proj4 d = "+datum=" ++ id ++ " " ++ e).
Proof.
  intros nm e. rewrite Datum_to_proj4_cases. cbv zeta. fold nm e.
  split; [|split; [|split]].
  - intros shift ->. split; [reflexivity|].
    intros Hell Hshift.
    rewrite contains_app_space by reflexivity.
    unfold e.
    now rewrite Ellipsoid_to_proj4_free, Hshift.
  - now intros -> ->.
  - intros -> -> Hid. apply truthy_false in Hid. now rewrite Hid.
  - intros id -> -> Hid Hne. now rewrite Hid, truthy_Some.
Qed.

(** C7: the PROJ render of a GeogCS is the renders of its datum, of its
    prime meridian and of its angular unit, in that order and separated by
    one space; the stored axis pair has no part in it (two GeogCS with the
    same datum, prime meridian and angular unit render alike), and it holds
    no [+axis=] token as long as none of its parts holds one. *)
Theorem GeogCS_to_proj4_without_axes (g : GeogCS.t num Param) :
  GeogCS.to_proj4 g =
    Datum.to_proj4 (GeogCS.datum g)
      ++ " " ++ parameters.to_proj4 (GeogCS.prime_mer g)
      ++ " " ++ parameters.to_proj4 (GeogCS.angunit g)
  /\ (forall g' : GeogCS.t num Param,
        GeogCS.datum g' = GeogCS.datum g ->
        GeogCS.prime_mer g' = GeogCS.prime_mer g ->
        GeogCS.angunit g' = GeogCS.angunit g ->
        GeogCS.to_proj4 g' = GeogCS.to_proj4 g)
  /\ (free_of "+axis=" (GeogCS_parts g) = true ->
      contains "+axis=" (GeogCS.to_proj4 g) = false).
Proof.
  split; [reflexivity | split].
  - intros g' Hdatum Hpm Hau. unfold GeogCS.to_proj4.
    now rewrite Hdatum, Hpm, Hau.
  - intros Hparts. now apply GeogCS_to_proj4_free.
Qed.

(** *** The renders of ProjCS *)

(** C5: the PROJ render of a ProjCS is the projection's render, a space,
    the base GeogCS's render, a space, the renders of the parameters in
    stored order joined by spaces, a space, the unit's render, then
    [ +axis=] and the PROJ characters of the first and of the second axis
    direction and a final [u], which ends the render of every ProjCS. *)
Theorem ProjCS_to_proj4_assembly (p : ProjCS.t num Param) :
  ProjCS.to_proj4 p =
    Projection.to_proj4 (ProjCS.proj p)
      ++ " " ++ GeogCS.to_proj4 (ProjCS.geogcs p)
      ++ " " ++ join " " (map parameters.to_proj4 (ProjCS.params p))
      ++ " " ++ parameters.to_proj4 (ProjCS.unit p)
      ++ " +axis=" ++ directions.proj4 (fst (ProjCS.twin_ax p))
      ++ directions.proj4 (snd (ProjCS.twin_ax p)) ++ "u"
  /\ endswith "u" (ProjCS.to_proj4 p) = true.
Proof.
  split; [apply ProjCS_to_proj4_flat|].
  unfold ProjCS.to_proj4. cbv zeta.
  rewrite <- !append_assoc. apply endswith_app.
Qed.

(** C4: in each of the three grammars the render of a ProjCS is a front
    and a back that do not depend on the parameters, around the renders of
    the parameters p1, ..., pn joined in that order; built from the
    reversed list, it has the same renders in reversed order. *)
Theorem ProjCS_params_order
    (name : string) (geogcs : GeogCS.t num Param) (proj : Projection.t)
    (unit : Param)
    (twin_ax : option (directions.Direction * directions.Direction)) :
  exists front4 back4 front_ogc back_ogc front_esri back_esri,
  forall params : list Param,
    let cs := ProjCS.init name geogcs proj params unit twin_ax in
    let rs := ProjCS.init name geogcs proj (rev params) unit twin_ax in
    ProjCS.params cs = params
    /\ ProjCS.to_proj4 cs
       = front4 ++ join " " (map parameters.to_proj4 params) ++ back4
    /\ ProjCS.to_ogc_wkt cs
       = front_ogc ++ join ", " (map parameters.to_ogc_wkt params) ++ back_ogc
    /\ ProjCS.to_esri_wkt cs
       = front_esri ++ join ", " (map parameters.to_esri_wkt params) ++ back_esri
    /\ ProjCS.to_proj4 rs
       = front4 ++ join " " (rev (map parameters.to_proj4 params)) ++ back4
    /\ ProjCS.to_ogc_wkt rs
       = front_ogc ++ join ", " (rev (map parameters.to_ogc_wkt params)) ++ back_ogc
    /\ ProjCS.to_esri_wkt rs
       = front_esri ++ join ", " (rev (map parameters.to_esri_wkt params)) ++ back_esri.
Proof.
  set (empty := ProjCS.init name geogcs proj [] unit twin_ax).
  exists (Projection.to_proj4 proj ++ " " ++ GeogCS.to_proj4 geogcs ++ " ").
  exists (" " ++ parameters.to_proj4 unit
            ++ " +axis=" ++ directions.proj4 (fst (ProjCS.twin_ax empty))
            ++ directions.proj4 (snd (ProjCS.twin_ax empty)) ++ "u").
  exists ("PROJCS[" ++ dquote ++ name ++ dquote
            ++ ", " ++ GeogCS.to_ogc_wkt geogcs
            ++ ", " ++ Projection.to_ogc_wkt proj ++ ", ").
  exists ((", " ++ parameters.to_ogc_wkt unit)
            ++ ", AXIS[" ++ dquote ++ "X" ++ dquote ++ ", "
            ++ directions.ogc_wkt (fst (ProjCS.twin_ax empty))
            ++ "], AXIS[" ++ dquote ++ "Y" ++ dquote ++ ", "
            ++ directions.ogc_wkt (snd (ProjCS.twin_ax empty)) ++ "]]").
  exists ("PROJCS[" ++ dquote ++ name ++ dquote
            ++ ", " ++ GeogCS.to_esri_wkt geogcs
            ++ ", " ++ Projection.to_esri_wkt proj ++ ", ").
  exists ((", " ++ parameters.to_esri_wkt unit)
            ++ ", AXIS[" ++ dquote ++ "X" ++ dquote ++ ", "
            ++ directions.esri_wkt (fst (ProjCS.twin_ax empty))
            ++ "], AXIS[" ++ dquote ++ "Y" ++ dquote ++ ", "
            ++ directions.esri_wkt (snd (ProjCS.twin_ax empty)) ++ "]]").
  intros params cs rs.
  rewrite !ProjCS_to_proj4_flat, !ProjCS_to_ogc_wkt_flat, !ProjCS_to_esri_wkt_flat.
  rewrite <- !map_rev.
  unfold cs, rs, empty, ProjCS.init. cbn [ProjCS.params ProjCS.proj ProjCS.geogcs
    ProjCS.unit ProjCS.twin_ax ProjCS.name].
  rewrite !append_assoc.
  repeat split; reflexivity.
Qed.

(** A ProjCS render holds [+proj=longlat] only if one of its parts does,
    or its projection identifier starts with [longlat], or an axis
    direction brings a [+]. *)
Lemma ProjCS_to_proj4_longlat_free (p : ProjCS.t num Param) :
  free_of "+proj=longlat" (ProjCS_parts p) = true ->
  startswith "longlat"
    (str (projections.proj4 (Projection.value (ProjCS.proj p)))) = false ->
  has_char "+" (directions.proj4 (fst (ProjCS.twin_ax p))) = false ->
  has_char "+" (directions.proj4 (snd (ProjCS.twin_ax p))) = false ->
  contains "+proj=longlat" (ProjCS.to_proj4 p) = false.
Proof.
  intros Hparts Hid Hd0 Hd1.
  unfold ProjCS_parts in Hparts.
  apply free_of_cons in Hparts as [Hproj Hparts].
  apply free_of_app in Hparts as [Hgeog Hparts].
  apply free_of_app in Hparts as [Hparams Hunit].
  apply free_of_cons in Hunit as [Hunit _].
  unfold free_of in Hparams. apply negb_true_iff in Hparams.
  rewrite ProjCS_to_proj4_flat.
  match goal with |- context [" +axis=" ++ ?r] =>
    change (" +axis=" ++ r) with (" " ++ "+axis=" ++ r) end.
  rewrite !contains_app_space by reflexivity.
  unfold Projection.to_proj4.
  rewrite contains_proj_longlat, Hid, Hproj.
  rewrite GeogCS_to_proj4_free by (reflexivity || assumption).
  rewrite (contains_join " ") by (reflexivity || discriminate).
  rewrite Hparams, Hunit.
  rewrite contains_apart by reflexivity.
  apply (contains_head _ _ "+"); [reflexivity|].
  now rewrite !has_char_app, Hd0, Hd1.
Qed.

(** *** The renders of CRS *)

(** C3: the PROJ render of a CRS whose root is a GeogCS is
    [+proj=longlat ], the render of the GeogCS, then [ +no_defs]; that of a
    CRS whose root is a ProjCS is the render of the ProjCS, then
    [ +no_defs], with no [+proj=longlat] token as long as no part of the
    ProjCS holds one, its projection identifier does not start with
    [longlat] and its axis characters hold no [+]; every render that is a
    string ends with [ +no_defs]. *)
Theorem CRS_to_proj4_framing (crs : CRS.t num Param) :
  (forall g, CRS.toplevel crs = CRS.IsGeogCS g ->
     CRS.to_proj4 crs = Some ("+proj=longlat " ++ GeogCS.to_proj4 g ++ " +no_defs"))
  /\ (forall p, CRS.toplevel crs = CRS.IsProjCS p ->
        CRS.to_proj4 crs = Some (ProjCS.to_proj4 p ++ " +no_defs")
        /\ (free_of "+proj=longlat" (ProjCS_parts p) = true ->
            startswith "longlat"
              (str (projections.proj4 (Projection.value (ProjCS.proj p)))) = false ->
            has_char "+" (directions.proj4 (fst (ProjCS.twin_ax p))) = false ->
            has_char "+" (directions.proj4 (snd (ProjCS.twin_ax p))) = false ->
            contains "+proj=longlat" (ProjCS.to_proj4 p ++ " +no_defs") = false))
  /\ (forall out, CRS.to_proj4 crs = Some out ->
        endswith " +no_defs" out = true
        /\ ((exists g, CRS.toplevel crs = CRS.IsGeogCS g) ->
            startswith "+proj=longlat " out = true)).
Proof.
  unfold CRS.to_proj4. split; [|split].
  - now intros g ->.
  - intros p ->. split; [reflexivity|].
    intros Hparts Hid Hd0 Hd1.
    change (" +no_defs") with (" " ++ "+no_defs").
    rewrite contains_app_space by reflexivity.
    now rewrite ProjCS_to_proj4_longlat_free.
  - intros out Hout. destruct (CRS.toplevel crs) as [p | g | o].
    + injection Hout as <-. split; [apply endswith_app|].
      intros [g [=]].
    + injection Hout as <-. split.
      * exact (endswith_app ("+proj=longlat " ++ GeogCS.to_proj4 g) " +no_defs").
      * intros _. exact (startswith_app "+proj=longlat " _).
    + discriminate.
Qed.

(** C10: the constructor of CRS stores whatever root it is given; with a
    root that is neither a ProjCS nor a GeogCS, [to_proj4] reaches no
    [return] and gives [None], and it gives [None] for no other root. *)
Theorem CRS_to_proj4_other_root :
  (forall root : CRS.root num Param, CRS.toplevel (CRS.init root) = root)
  /\ (forall o, CRS.to_proj4 (CRS.init (CRS.IsOther o : CRS.root num Param)) = None)
  /\ (forall crs : CRS.t num Param,
        CRS.to_proj4 crs = None <-> exists o, CRS.toplevel crs = CRS.IsOther o).
Proof.
  split; [reflexivity | split; [reflexivity|]].
  intros crs. unfold CRS.to_proj4.
  destruct (CRS.toplevel crs) as [p | g | o].
  - split; [discriminate | intros [o [=]]].
  - split; [discriminate | intros [o [=]]].
  - split; [intros _; now exists o | reflexivity].
Qed.



(** *** The default axes *)

(** C6: a GeogCS and a ProjCS constructed without an axis pair store the
    pair (East, North) and are the very objects constructed with that pair
    given, so that their renders are the same in every grammar: the AXIS
    clauses of both WKT grammars name East then North, and so does the
    [+axis=] flag of a ProjCS. *)
Theorem default_axes_East_North :
  (forall (name : string) (datum : Datum.t num Param) (prime_mer angunit : Param),
     let g := GeogCS.init name datum prime_mer angunit None in
     GeogCS.twin_ax g = (directions.East, directions.North)
     /\ g = GeogCS.init name datum prime_mer angunit
              (Some (directions.East, directions.North))
     /\ (exists front, GeogCS.to_ogc_wkt g =
           front ++ ", AXIS[" ++ dquote ++ "Lon" ++ dquote ++ ", "
             ++ directions.ogc_wkt directions.East
             ++ "], AXIS[" ++ dquote ++ "Lat" ++ dquote ++ ", "
             ++ directions.ogc_wkt directions.North ++ "]]")
     /\ (exists front, GeogCS.to_esri_wkt g =
           front ++ ", AXIS[" ++ dquote ++ "Lon" ++ dquote ++ ", "
             ++ directions.esri_wkt directions.East
             ++ "], AXIS[" ++ dquote ++ "Lat" ++ dquote ++ ", "
             ++ directions.esri_wkt directions.North ++ "]]"))
  /\ (forall (name : string) (geogcs : GeogCS.t num Param) (proj : Projection.t)
        (params : list Param) (unit : Param),
        let p := ProjCS.init name geogcs proj params unit None in
        ProjCS.twin_ax p = (directions.East, directions.North)
        /\ p = ProjCS.init name geogcs proj params unit
                 (Some (directions.East, directions.North))
        /\ (exists front, ProjCS.to_proj4 p =
              front ++ " +axis=" ++ directions.proj4 directions.East
                ++ directions.proj4 directions.North ++ "u")
        /\ (exists front, ProjCS.to_ogc_wkt p =
              front ++ ", AXIS[" ++ dquote ++ "X" ++ dquote ++ ", "
                ++ directions.ogc_wkt directions.East
                ++ "], AXIS[" ++ dquote ++ "Y" ++ dquote ++ ", "
                ++ directions.ogc_wkt directions.North ++ "]]")
        /\ (exists front, ProjCS.to_esri_wkt p =
              front ++ ", AXIS[" ++ dquote ++ "X" ++ dquote ++ ", "
                ++ directions.esri_wkt directions.East
                ++ "], AXIS[" ++ dquote ++ "Y" ++ dquote ++ ", "
                ++ directions.esri_wkt directions.North ++ "]]")).
Proof.
  split.
  - intros name datum prime_mer angunit g.
    split; [reflexivity | split; [reflexivity | split]].
    + exists ("GEOGCS[" ++ dquote ++ name ++ dquote
                ++ ", " ++ Datum.to_ogc_wkt datum
                ++ ", " ++ parameters.to_ogc_wkt prime_mer
                ++ ", " ++ parameters.to_ogc_wkt angunit).
      unfold GeogCS.to_ogc_wkt, g, GeogCS.init.
      cbn [GeogCS.twin_ax GeogCS.name GeogCS.datum GeogCS.prime_mer
           GeogCS.angunit fst snd].
      now rewrite !append_assoc.
    + exists ("GEOGCS[" ++ dquote ++ name ++ dquote
                ++ ", " ++ Datum.to_esri_wkt datum
                ++ ", " ++ parameters.to_esri_wkt prime_mer
                ++ ", " ++ parameters.to_esri_wkt angunit).
      unfold GeogCS.to_esri_wkt, g, GeogCS.init.
      cbn [GeogCS.twin_ax GeogCS.name GeogCS.datum GeogCS.prime_mer
           GeogCS.angunit fst snd].
      now rewrite !append_assoc.
  - intros name geogcs proj params unit p.
    split; [reflexivity | split; [reflexivity | split; [|split]]].
    + rewrite ProjCS_to_proj4_flat.
      exists (Projection.to_proj4 proj
                ++ " " ++ GeogCS.to_proj4 geogcs
                ++ " " ++ join " " (map parameters.to_proj4 params)
                ++ " " ++ parameters.to_proj4 unit).
      unfold p, ProjCS.init.
      cbn [ProjCS.twin_ax ProjCS.name ProjCS.geogcs ProjCS.proj ProjCS.params
           ProjCS.unit fst snd].
      now rewrite !append_assoc.
    + rewrite ProjCS_to_ogc_wkt_flat.
      exists (("PROJCS[" ++ dquote ++ name ++ dquote
                 ++ ", " ++ GeogCS.to_ogc_wkt geogcs
                 ++ ", " ++ Projection.to_ogc_wkt proj ++ ", ")
                ++ join ", " (map parameters.to_ogc_wkt params)
                ++ ", " ++ parameters.to_ogc_wkt unit).
      unfold p, ProjCS.init.
      cbn [ProjCS.twin_ax ProjCS.name ProjCS.geogcs ProjCS.proj ProjCS.params
           ProjCS.unit fst snd].
      now rewrite !append_assoc.
    + rewrite ProjCS_to_esri_wkt_flat.
      exists (("PROJCS[" ++ dquote ++ name ++ dquote
                 ++ ", " ++ GeogCS.to_esri_wkt geogcs
                 ++ ", " ++ Projection.to_esri_wkt proj ++ ", ")
                ++ join ", " (map parameters.to_esri_wkt params)
                ++ ", " ++ parameters.to_esri_wkt unit).
      unfold p, ProjCS.init.
      cbn [ProjCS.twin_ax ProjCS.name ProjCS.geogcs ProjCS.proj ProjCS.params
           ProjCS.unit fst snd].
      now rewrite !append_assoc.
Qed.

End Properties.

(** ** Substrings of a concatenation *)

Lemma startswith_app_l (p a b : string) :
  startswith p a = true -> startswith p (a ++ b) = true.
Proof.
  revert a; induction p as [|x p IH]; intros [|y a]; simpl; try easy.
  intros Hp. apply andb_true_iff in Hp as [-> Hp]. now apply IH.
Qed.

Lemma contains_empty (s : string) : contains "" s = true.
Proof. now destruct s. Qed.

Lemma contains_app_r (p a b : string) :
  contains p b = true -> contains p (a ++ b) = true.
Proof.
  intros Hb. induction a as [|x a IH]; [exact Hb|].
  simpl. rewrite IH. apply orb_true_r.
Qed.

Lemma contains_app_l (p a b : string) :
  contains p a = true -> contains p (a ++ b) = true.
Proof.
  induction a as [|x a IH]; intros Ha.
  - destruct p; [apply contains_empty | discriminate].
  - change (String x a ++ b) with (String x (a ++ b)).
    cbn [contains] in Ha |- *.
    apply orb_true_iff in Ha as [Ha | Ha].
    + change (String x (a ++ b)) with (String x a ++ b).
      now rewrite startswith_app_l.
    + rewrite IH by assumption. apply orb_true_r.
Qed.

Lemma startswith_refl (p : string) : startswith p p = true.
Proof.
  induction p as [|x p IH]; simpl; [reflexivity|].
  now rewrite Ascii.eqb_refl.
Qed.

Lemma contains_refl (p : string) : contains p p = true.
Proof.
  destruct p as [|x p]; [reflexivity|].
  cbn [contains]. now rewrite startswith_refl.
Qed.

(** A string occurs in whatever is built around it. *)
Lemma contains_infix (p a b : string) : contains p (a ++ p ++ b) = true.
Proof.
  apply contains_app_r, contains_app_l, contains_refl.
Qed.

Lemma startswith_elim (p s : string) :
  startswith p s = true -> exists b, s = p ++ b.
Proof.
  revert s; induction p as [|x p IH]; intros s Hs.
  - now exists s.
  - destruct s as [|y s]; [discriminate|].
    simpl in Hs. apply andb_true_iff in Hs as [Hxy Hs].
    apply Ascii.eqb_eq in Hxy as ->.
    destruct (IH s Hs) as [b ->]. now exists b.
Qed.

Lemma contains_elim (p s : string) :
  contains p s = true -> exists a b, s = a ++ p ++ b.
Proof.
  induction s as [|y s IH]; cbn [contains]; intros Hs.
  - rewrite orb_false_r in Hs. destruct (startswith_elim _ _ Hs) as [b ->].
    now exists "", b.
  - apply orb_true_iff in Hs as [Hs | Hs].
    + destruct (startswith_elim _ _ Hs) as [b ->]. now exists "", b.
    + destruct (IH Hs) as (a & b & ->). now exists (String y a), b.
Qed.

Lemma contains_trans (p q s : string) :
  contains p q = true -> contains q s = true -> contains p s = true.
Proof.
  intros Hpq Hqs.
  destruct (contains_elim _ _ Hpq) as (a & b & ->).
  destruct (contains_elim _ _ Hqs) as (c & d & ->).
  rewrite !append_assoc, <- append_assoc.
  apply contains_infix.
Qed.

Lemma startswith_trans (p q s : string) :
  startswith p q = true -> startswith q s = true -> startswith p s = true.
Proof.
  intros Hpq Hqs.
  destruct (startswith_elim _ _ Hpq) as [a ->].
  destruct (startswith_elim _ _ Hqs) as [b ->].
  rewrite append_assoc. apply startswith_app.
Qed.

Lemma startswith_cancel (a p s : string) :
  startswith (a ++ p) (a ++ s) = startswith p s.
Proof.
  induction a as [|x a IH]; [reflexivity|].
  simpl. now rewrite Ascii.eqb_refl.
Qed.

(** ** How the renders of a tree hold the renders of its components *)

(** Finds the component among the pieces of a concatenation. *)
Ltac find_infix :=
  solve [ apply contains_refl
        | apply contains_app_l; apply contains_refl
        | apply contains_app_r; find_infix ].

Section Structure.
Context {num : Type} `{Str num} `{directions.Catalog}
  {Param : Type} `{parameters.Renderable Param}.

Lemma Ellipsoid_to_proj4_has_numbers (e : Ellipsoid.t num) :
  contains ("+a=" ++ str (Ellipsoid.semimaj_ax e) ++ " +f=" ++ str (Ellipsoid.inv_flat e))
    (Ellipsoid.to_proj4 e) = true.
Proof.
  rewrite Ellipsoid_to_proj4_cases. cbv zeta.
  destruct (_ || _); find_infix.
Qed.

Lemma Datum_to_proj4_has_ellipsoid (d : Datum.t num Param) :
  contains (Ellipsoid.to_proj4 (Datum.ellips d)) (Datum.to_proj4 d) = true.
Proof.
  rewrite Datum_to_proj4_cases. cbv zeta.
  destruct (Datum.datumshift d); [find_infix|].
  destruct (_ || _); find_infix.
Qed.

Lemma GeogCS_to_proj4_has_datum (g : GeogCS.t num Param) :
  contains (Datum.to_proj4 (GeogCS.datum g)) (GeogCS.to_proj4 g) = true.
Proof. unfold GeogCS.to_proj4. find_infix. Qed.

Lemma ProjCS_to_proj4_has_geogcs (p : ProjCS.t num Param) :
  contains (GeogCS.to_proj4 (ProjCS.geogcs p)) (ProjCS.to_proj4 p) = true.
Proof. rewrite ProjCS_to_proj4_flat. find_infix. Qed.

Lemma Datum_to_ogc_wkt_has_ellipsoid (d : Datum.t num Param) :
  contains (Ellipsoid.to_ogc_wkt (Datum.ellips d)) (Datum.to_ogc_wkt d) = true.
Proof. unfold Datum.to_ogc_wkt. destruct (Datum.datumshift d); find_infix. Qed.

Lemma Datum_to_esri_wkt_has_ellipsoid (d : Datum.t num Param) :
  contains (Ellipsoid.to_esri_wkt (Datum.ellips d)) (Datum.to_esri_wkt d) = true.
Proof. unfold Datum.to_esri_wkt. destruct (Datum.datumshift d); find_infix. Qed.

Lemma GeogCS_to_ogc_wkt_has_datum (g : GeogCS.t num Param) :
  contains (Datum.to_ogc_wkt (GeogCS.datum g)) (GeogCS.to_ogc_wkt g) = true.
Proof. unfold GeogCS.to_ogc_wkt. find_infix. Qed.

Lemma GeogCS_to_esri_wkt_has_datum (g : GeogCS.t num Param) :
  contains (Datum.to_esri_wkt (GeogCS.datum g)) (GeogCS.to_esri_wkt g) = true.
Proof. unfold GeogCS.to_esri_wkt. find_infix. Qed.

Lemma ProjCS_to_ogc_wkt_has_geogcs (p : ProjCS.t num Param) :
  contains (GeogCS.to_ogc_wkt (ProjCS.geogcs p)) (ProjCS.to_ogc_wkt p) = true.
Proof.
  rewrite ProjCS_to_ogc_wkt_flat, !append_assoc. find_infix.
Qed.

Lemma ProjCS_to_esri_wkt_has_geogcs (p : ProjCS.t num Param) :
  contains (GeogCS.to_esri_wkt (ProjCS.geogcs p)) (ProjCS.to_esri_wkt p) = true.
Proof.
  rewrite ProjCS_to_esri_wkt_flat, !append_assoc. find_infix.
Qed.

(** X1: whenever [CRS.to_proj4] returns a string, the string starts with a
    [+proj=] token: [+proj=longlat] for a GeogCS root, the projection's own
    for a ProjCS root. *)
Theorem CRS_to_proj4_starts_with_proj (crs : CRS.t num Param) (out : string) :
  CRS.to_proj4 crs = Some out ->
  startswith "+proj=" out = true
  /\ (forall p, CRS.toplevel crs = CRS.IsProjCS p ->
        startswith (Projection.to_proj4 (ProjCS.proj p) ++ " ") out = true).
Proof.
  unfold CRS.to_proj4.
  destruct (CRS.toplevel crs) as [p | g | o]; intros Hout;
    try discriminate; injection Hout as Hout; rewrite <- Hout.
  - assert (Hp : startswith (Projection.to_proj4 (ProjCS.proj p) ++ " ")
                   (ProjCS.to_proj4 p ++ " +no_defs") = true).
    { rewrite ProjCS_to_proj4_flat, <- !append_assoc.
      rewrite !(append_assoc (_ ++ " ")). apply startswith_app. }
    split.
    + apply (startswith_trans _ _ _ (startswith_app "+proj=" _) Hp).
    + now intros p' [= <-].
  - split; [reflexivity | intros p [=]].
Qed.

(** X2: the PROJ render of a CRS rooted in a GeogCS or a ProjCS holds,
    unbroken, the PROJ render of its geographic CS, of the datum and of
    the ellipsoid, and with the latter the two numbers [+a=... +f=...],
    whichever branch the datum and the ellipsoid take. *)
Theorem CRS_to_proj4_holds_components
    (crs : CRS.t num Param) (g : GeogCS.t num Param) :
  root_geogcs (CRS.toplevel crs) = Some g ->
  let d := GeogCS.datum g in
  let e := Datum.ellips d in
  exists out,
    CRS.to_proj4 crs = Some out
    /\ contains (GeogCS.to_proj4 g) out = true
    /\ contains (Datum.to_proj4 d) out = true
    /\ contains (Ellipsoid.to_proj4 e) out = true
    /\ contains ("+a=" ++ str (Ellipsoid.semimaj_ax e)
                   ++ " +f=" ++ str (Ellipsoid.inv_flat e)) out = true.
Proof.
  intros Hroot d e.
  assert (Hg : exists out, CRS.to_proj4 crs = Some out
                 /\ contains (GeogCS.to_proj4 g) out = true).
  { unfold CRS.to_proj4. destruct (CRS.toplevel crs) as [p | g' | o];
      simpl in Hroot; try discriminate; injection Hroot as <-.
    - eexists. split; [reflexivity|].
      apply contains_app_l, ProjCS_to_proj4_has_geogcs.
    - eexists. split; [reflexivity|]. find_infix. }
  destruct Hg as (out & Hout & Hg). exists out.
  pose proof (contains_trans _ _ _ (GeogCS_to_proj4_has_datum g) Hg) as Hd.
  pose proof (contains_trans _ _ _ (Datum_to_proj4_has_ellipsoid d) Hd) as He.
  pose proof (contains_trans _ _ _ (Ellipsoid_to_proj4_has_numbers e) He) as Hn.
  now repeat split.
Qed.

(** X3: in both WKT grammars the text returned by the render of a CRS
    rooted in a GeogCS or a ProjCS holds, unbroken, the GEOGCS clause of
    its geographic CS, the DATUM clause and the SPHEROID clause. *)
Theorem CRS_wkt_holds_components
    (crs : CRS.t num Param) (g : GeogCS.t num Param) :
  root_geogcs (CRS.toplevel crs) = Some g ->
  let d := GeogCS.datum g in
  let e := Datum.ellips d in
  (forall out, CRS.to_ogc_wkt crs = Returns out ->
     contains (GeogCS.to_ogc_wkt g) out = true
     /\ contains (Datum.to_ogc_wkt d) out = true
     /\ contains (Ellipsoid.to_ogc_wkt e) out = true)
  /\ (forall out, CRS.to_esri_wkt crs = Returns out ->
        contains (GeogCS.to_esri_wkt g) out = true
        /\ contains (Datum.to_esri_wkt d) out = true
        /\ contains (Ellipsoid.to_esri_wkt e) out = true).
Proof.
  intros Hroot d e. split; intros out Hout.
  - assert (Hg : contains (GeogCS.to_ogc_wkt g) out = true).
    { unfold CRS.to_ogc_wkt in Hout. destruct (CRS.toplevel crs) as [p | g' | o];
        simpl in Hroot; try discriminate; injection Hroot as <-;
        assert (Hs : forall s, Returns s = Returns out -> s = out)
          by (now intros s [= ->]); apply Hs in Hout; rewrite <- Hout.
      - apply ProjCS_to_ogc_wkt_has_geogcs.
      - apply contains_refl. }
    pose proof (contains_trans _ _ _ (GeogCS_to_ogc_wkt_has_datum g) Hg) as Hd.
    pose proof (contains_trans _ _ _ (Datum_to_ogc_wkt_has_ellipsoid d) Hd) as He.
    now repeat split.
  - assert (Hg : contains (GeogCS.to_esri_wkt g) out = true).
    { unfold CRS.to_esri_wkt in Hout. destruct (CRS.toplevel crs) as [p | g' | o];
        simpl in Hroot; try discriminate; injection Hroot as <-;
        assert (Hs : forall s, Returns s = Returns out -> s = out)
          by (now intros s [= ->]); apply Hs in Hout; rewrite <- Hout.
      - apply ProjCS_to_esri_wkt_has_geogcs.
      - apply contains_refl. }
    pose proof (contains_trans _ _ _ (GeogCS_to_esri_wkt_has_datum g) Hg) as Hd.
    pose proof (contains_trans _ _ _ (Datum_to_esri_wkt_has_ellipsoid d) Hd) as He.
    now repeat split.
Qed.

(** ** The constructor of Ellipsoid *)

(** X4: leaving an argument of the Ellipsoid constructor out is the same
    as passing the default of the catalogue entry, argument by argument;
    and constructing again from the name and the two fields of an
    ellipsoid gives that ellipsoid back. *)
Theorem Ellipsoid_init_defaults_explicit
    (name : ellipsoids.Name num) (semimaj_ax inv_flat : option num) :
  Ellipsoid.init name None inv_flat
    = Ellipsoid.init name (ellipsoids.semimaj_ax name) inv_flat
  /\ Ellipsoid.init name semimaj_ax None
     = Ellipsoid.init name semimaj_ax (ellipsoids.inv_flat name)
  /\ (let e := Ellipsoid.init name semimaj_ax inv_flat in
      Ellipsoid.init (Ellipsoid.name e) (Ellipsoid.semimaj_ax e) (Ellipsoid.inv_flat e)
      = e).
Proof.
  unfold Ellipsoid.init. repeat split.
  - now destruct (ellipsoids.semimaj_ax name).
  - now destruct (ellipsoids.inv_flat name).
  - cbn. destruct semimaj_ax, inv_flat; cbn;
      destruct (ellipsoids.semimaj_ax name), (ellipsoids.inv_flat name);
      reflexivity.
Qed.

(** X5: the constructor never fails: with no argument and a catalogue
    entry whose two defaults are [None], the ellipsoid is built with both
    fields [None], and the three renders print them as the text [None]. *)
Theorem Ellipsoid_without_numbers_renders_None (name : ellipsoids.Name num) :
  ellipsoids.semimaj_ax name = None ->
  ellipsoids.inv_flat name = None ->
  let e := Ellipsoid.init name None None in
  Ellipsoid.semimaj_ax e = None
  /\ Ellipsoid.inv_flat e = None
  /\ (exists front, Ellipsoid.to_proj4 e = front ++ "+a=None +f=None")
  /\ Ellipsoid.to_ogc_wkt e
     = "SPHEROID[" ++ dquote ++ ellipsoids.ogc_wkt name ++ dquote ++ ", None, None]"
  /\ Ellipsoid.to_esri_wkt e
     = "SPHEROID[" ++ dquote ++ ellipsoids.esri_wkt name ++ dquote ++ ", None, None]".
Proof.
  intros Ha Hf e.
  assert (He : e = {| Ellipsoid.name := name; Ellipsoid.semimaj_ax := None;
                      Ellipsoid.inv_flat := None |}).
  { unfold e, Ellipsoid.init. cbn. now rewrite Ha, Hf. }
  rewrite He. split; [reflexivity | split; [reflexivity | split]].
  - rewrite Ellipsoid_to_proj4_cases. cbv zeta.
    cbn [Ellipsoid.name Ellipsoid.semimaj_ax Ellipsoid.inv_flat].
    destruct (_ || _).
    + now exists "".
    + exists ("+ellps=" ++ str (ellipsoids.proj4 name) ++ " ").
      now rewrite !append_assoc.
  - split; reflexivity.
Qed.

(** ** The WKT renders *)

(** X6: in both WKT grammars a datum shift adds one clause before the
    closing bracket of the DATUM clause and changes nothing else. *)
Theorem Datum_wkt_shift_clause
    (name : datums.Name) (ellipsoid : Ellipsoid.t num) (shift : Param) :
  exists front_ogc front_esri,
    Datum.to_ogc_wkt (Datum.init name ellipsoid None) = front_ogc ++ "]"
    /\ Datum.to_ogc_wkt (Datum.init name ellipsoid (Some shift))
       = front_ogc ++ ", " ++ parameters.to_ogc_wkt shift ++ "]"
    /\ Datum.to_esri_wkt (Datum.init name ellipsoid None) = front_esri ++ "]"
    /\ Datum.to_esri_wkt (Datum.init name ellipsoid (Some shift))
       = front_esri ++ ", " ++ parameters.to_esri_wkt shift ++ "]".
Proof.
  exists ("DATUM[" ++ dquote ++ datums.ogc_wkt name ++ dquote
            ++ ", " ++ Ellipsoid.to_ogc_wkt ellipsoid).
  exists ("DATUM[" ++ dquote ++ datums.esri_wkt name ++ dquote
            ++ ", " ++ Ellipsoid.to_esri_wkt ellipsoid).
  unfold Datum.to_ogc_wkt, Datum.to_esri_wkt, Datum.init.
  cbn [Datum.datumshift Datum.name Datum.ellips].
  rewrite !append_assoc. repeat split; reflexivity.
Qed.

(** X10: a ProjCS with an empty list of parameters still writes both
    separators around the empty join: its PROJ render has two spaces in a
    row between the GeogCS and the unit, and its WKT renders have an empty
    element [, , ] between the PROJECTION clause and the unit. *)
Theorem ProjCS_without_params (p : ProjCS.t num Param) :
  ProjCS.params p = [] ->
  (exists back,
     ProjCS.to_proj4 p
     = Projection.to_proj4 (ProjCS.proj p) ++ " " ++ GeogCS.to_proj4 (ProjCS.geogcs p)
         ++ "  " ++ parameters.to_proj4 (ProjCS.unit p) ++ back)
  /\ contains "  " (ProjCS.to_proj4 p) = true
  /\ contains (Projection.to_ogc_wkt (ProjCS.proj p) ++ ", , "
                 ++ parameters.to_ogc_wkt (ProjCS.unit p))
       (ProjCS.to_ogc_wkt p) = true
  /\ contains (Projection.to_esri_wkt (ProjCS.proj p) ++ ", , "
                 ++ parameters.to_esri_wkt (ProjCS.unit p))
       (ProjCS.to_esri_wkt p) = true.
Proof.
  intros Hparams.
  assert (H4 : ProjCS.to_proj4 p
               = Projection.to_proj4 (ProjCS.proj p) ++ " "
                   ++ GeogCS.to_proj4 (ProjCS.geogcs p)
                   ++ "  " ++ parameters.to_proj4 (ProjCS.unit p)
                   ++ " +axis=" ++ directions.proj4 (fst (ProjCS.twin_ax p))
                   ++ directions.proj4 (snd (ProjCS.twin_ax p)) ++ "u").
  { rewrite ProjCS_to_proj4_flat, Hparams. reflexivity. }
  split; [eexists; exact H4 | split; [|split]].
  - rewrite H4. find_infix.
  - assert (Heq : ProjCS.to_ogc_wkt p
                   = ("PROJCS[" ++ dquote ++ ProjCS.name p ++ dquote
                        ++ ", " ++ GeogCS.to_ogc_wkt (ProjCS.geogcs p) ++ ", ")
                       ++ (Projection.to_ogc_wkt (ProjCS.proj p) ++ ", , "
                             ++ parameters.to_ogc_wkt (ProjCS.unit p))
                       ++ ", AXIS[" ++ dquote ++ "X" ++ dquote ++ ", "
                       ++ directions.ogc_wkt (fst (ProjCS.twin_ax p))
                       ++ "], AXIS[" ++ dquote ++ "Y" ++ dquote ++ ", "
                       ++ directions.ogc_wkt (snd (ProjCS.twin_ax p)) ++ "]]").
    { rewrite ProjCS_to_ogc_wkt_flat, Hparams. cbn [map join String.concat].
      now rewrite !append_assoc. }
    rewrite Heq. apply contains_infix.
  - assert (Heq : ProjCS.to_esri_wkt p
                   = ("PROJCS[" ++ dquote ++ ProjCS.name p ++ dquote
                        ++ ", " ++ GeogCS.to_esri_wkt (ProjCS.geogcs p) ++ ", ")
                       ++ (Projection.to_esri_wkt (ProjCS.proj p) ++ ", , "
                             ++ parameters.to_esri_wkt (ProjCS.unit p))
                       ++ ", AXIS[" ++ dquote ++ "X" ++ dquote ++ ", "
                       ++ directions.esri_wkt (fst (ProjCS.twin_ax p))
                       ++ "], AXIS[" ++ dquote ++ "Y" ++ dquote ++ ", "
                       ++ directions.esri_wkt (snd (ProjCS.twin_ax p)) ++ "]]").
    { rewrite ProjCS_to_esri_wkt_flat, Hparams. cbn [map join String.concat].
      now rewrite !append_assoc. }
    rewrite Heq. apply contains_infix.
Qed.

Lemma Datum_wkt_opens (d : Datum.t num Param) :
  startswith "DATUM[" (Datum.to_ogc_wkt d) = true
  /\ startswith "DATUM[" (Datum.to_esri_wkt d) = true.
Proof.
  unfold Datum.to_ogc_wkt, Datum.to_esri_wkt.
  destruct (Datum.datumshift d); split; exact (startswith_app "DATUM[" _).
Qed.

Lemma GeogCS_wkt_frame (g : GeogCS.t num Param) :
  let opening := "GEOGCS[" ++ dquote ++ GeogCS.name g ++ dquote ++ ", DATUM[" in
  (startswith opening (GeogCS.to_ogc_wkt g) = true
   /\ endswith "]]" (GeogCS.to_ogc_wkt g) = true)
  /\ (startswith opening (GeogCS.to_esri_wkt g) = true
      /\ endswith "]]" (GeogCS.to_esri_wkt g) = true).
Proof.
  intros opening. destruct (Datum_wkt_opens (GeogCS.datum g)) as [Ho He].
  destruct (startswith_elim _ _ Ho) as [ro Hro].
  destruct (startswith_elim _ _ He) as [re Hre].
  unfold opening, GeogCS.to_ogc_wkt, GeogCS.to_esri_wkt. rewrite Hro, Hre.
  repeat split.
  - rewrite !startswith_cancel. reflexivity.
  - rewrite <- !append_assoc. apply endswith_app.
  - rewrite !startswith_cancel. reflexivity.
  - rewrite <- !append_assoc. apply endswith_app.
Qed.

Lemma ProjCS_wkt_frame (p : ProjCS.t num Param) :
  let opening :=
    "PROJCS[" ++ dquote ++ ProjCS.name p ++ dquote
      ++ ", GEOGCS[" ++ dquote ++ GeogCS.name (ProjCS.geogcs p) ++ dquote
      ++ ", DATUM[" in
  (startswith opening (ProjCS.to_ogc_wkt p) = true
   /\ endswith "]]" (ProjCS.to_ogc_wkt p) = true)
  /\ (startswith opening (ProjCS.to_esri_wkt p) = true
      /\ endswith "]]" (ProjCS.to_esri_wkt p) = true).
Proof.
  intros opening.
  destruct (GeogCS_wkt_frame (ProjCS.geogcs p)) as [[Ho _] [He _]].
  destruct (startswith_elim _ _ Ho) as [ro Hro].
  destruct (startswith_elim _ _ He) as [re Hre].
  unfold opening. repeat split.
  - rewrite ProjCS_to_ogc_wkt_flat, Hro, !append_assoc.
    rewrite !startswith_cancel.
    match goal with |- context [", GEOGCS[" ++ ?x] =>
      change (", GEOGCS[" ++ x) with (", " ++ "GEOGCS[" ++ x) end.
    rewrite !startswith_cancel. apply startswith_app.
  - unfold ProjCS.to_ogc_wkt. cbv zeta.
    rewrite <- !append_assoc. apply endswith_app.
  - rewrite ProjCS_to_esri_wkt_flat, Hre, !append_assoc.
    rewrite !startswith_cancel.
    match goal with |- context [", GEOGCS[" ++ ?x] =>
      change (", GEOGCS[" ++ x) with (", " ++ "GEOGCS[" ++ x) end.
    rewrite !startswith_cancel. apply startswith_app.
  - unfold ProjCS.to_esri_wkt. cbv zeta.
    rewrite <- !append_assoc. apply endswith_app.
Qed.

(** X12: the text returned by a WKT render of a CRS opens with the name
    of the root clause, [GEOGCS[<name>, DATUM[] for a GeogCS root and
    [PROJCS[<name>, GEOGCS[<name of the base>, DATUM[] for a ProjCS root
    (each name between double quotes), and closes with two closing
    brackets. *)
Theorem CRS_wkt_framing (crs : CRS.t num Param) :
  (forall g, CRS.toplevel crs = CRS.IsGeogCS g ->
     let opening :=
       "GEOGCS[" ++ dquote ++ GeogCS.name g ++ dquote ++ ", DATUM[" in
     (forall ogc, CRS.to_ogc_wkt crs = Returns ogc ->
        startswith opening ogc = true /\ endswith "]]" ogc = true)
     /\ (forall esri, CRS.to_esri_wkt crs = Returns esri ->
           startswith opening esri = true /\ endswith "]]" esri = true))
  /\ (forall p, CRS.toplevel crs = CRS.IsProjCS p ->
        let opening :=
          "PROJCS[" ++ dquote ++ ProjCS.name p ++ dquote
            ++ ", GEOGCS[" ++ dquote ++ GeogCS.name (ProjCS.geogcs p) ++ dquote
            ++ ", DATUM[" in
        (forall ogc, CRS.to_ogc_wkt crs = Returns ogc ->
           startswith opening ogc = true /\ endswith "]]" ogc = true)
        /\ (forall esri, CRS.to_esri_wkt crs = Returns esri ->
              startswith opening esri = true /\ endswith "]]" esri = true)).
Proof.
  assert (Hs : forall s out : string, Returns s = Returns out -> s = out)
    by (now intros s out [= ->]).
  unfold CRS.to_ogc_wkt, CRS.to_esri_wkt. split.
  - intros g Hroot. rewrite Hroot. cbv zeta.
    pose proof (GeogCS_wkt_frame g) as Hframe. cbv zeta in Hframe.
    destruct Hframe as [Ho He].
    split; intros out Hout; apply Hs in Hout; rewrite <- Hout; assumption.
  - intros p Hroot. rewrite Hroot. cbv zeta.
    pose proof (ProjCS_wkt_frame p) as Hframe. cbv zeta in Hframe.
    destruct Hframe as [Ho He].
    split; intros out Hout; apply Hs in Hout; rewrite <- Hout; assumption.
Qed.

(** ** What each render reads *)

Lemma Datum_wkt_relabel (r : relabelling num) (d : Datum.t num Param) :
  keeps_wkt r ->
  Datum.to_ogc_wkt (relabel_Datum r d) = Datum.to_ogc_wkt d
  /\ Datum.to_esri_wkt (relabel_Datum r d) = Datum.to_esri_wkt d.
Proof.
  intros (_ & Hdat & Hell & _).
  unfold Datum.to_ogc_wkt, Datum.to_esri_wkt, Ellipsoid.to_ogc_wkt,
    Ellipsoid.to_esri_wkt, relabel_Datum, relabel_Ellipsoid.
  cbn [Datum.name Datum.ellips Datum.datumshift Ellipsoid.name
       Ellipsoid.semimaj_ax Ellipsoid.inv_flat].
  destruct (Hdat (Datum.name d)) as [-> ->].
  destruct (Hell (Ellipsoid.name (Datum.ellips d))) as [-> ->].
  split; reflexivity.
Qed.

Lemma GeogCS_wkt_relabel (r : relabelling num) (g : GeogCS.t num Param) :
  keeps_wkt r ->
  GeogCS.to_ogc_wkt (relabel_GeogCS r g) = GeogCS.to_ogc_wkt g
  /\ GeogCS.to_esri_wkt (relabel_GeogCS r g) = GeogCS.to_esri_wkt g.
Proof.
  intros Hr. destruct (Datum_wkt_relabel r (GeogCS.datum g) Hr) as [Ho He].
  destruct Hr as (Hdir & _ & _ & _ & Hcs).
  unfold GeogCS.to_ogc_wkt, GeogCS.to_esri_wkt, relabel_GeogCS, relabel_axes.
  cbn [GeogCS.name GeogCS.datum GeogCS.prime_mer GeogCS.angunit GeogCS.twin_ax
       fst snd].
  rewrite Ho, He, Hcs.
  destruct (Hdir (fst (GeogCS.twin_ax g))) as [-> ->].
  destruct (Hdir (snd (GeogCS.twin_ax g))) as [-> ->].
  split; reflexivity.
Qed.

Lemma ProjCS_wkt_relabel (r : relabelling num) (p : ProjCS.t num Param) :
  keeps_wkt r ->
  ProjCS.to_ogc_wkt (relabel_ProjCS r p) = ProjCS.to_ogc_wkt p
  /\ ProjCS.to_esri_wkt (relabel_ProjCS r p) = ProjCS.to_esri_wkt p.
Proof.
  intros Hr. destruct (GeogCS_wkt_relabel r (ProjCS.geogcs p) Hr) as [Ho He].
  destruct Hr as (Hdir & _ & _ & Hproj & Hcs).
  unfold ProjCS.to_ogc_wkt, ProjCS.to_esri_wkt, Projection.to_ogc_wkt,
    Projection.to_esri_wkt, relabel_ProjCS, relabel_Projection, relabel_axes.
  cbn [ProjCS.name ProjCS.geogcs ProjCS.proj ProjCS.params ProjCS.unit
       ProjCS.twin_ax Projection.value fst snd].
  rewrite Ho, He, Hcs.
  destruct (Hproj (Projection.value (ProjCS.proj p))) as [-> ->].
  destruct (Hdir (fst (ProjCS.twin_ax p))) as [-> ->].
  destruct (Hdir (snd (ProjCS.twin_ax p))) as [-> ->].
  split; reflexivity.
Qed.

(** X7: the two WKT renders of a CRS read, of the catalogue entries,
    nothing but the WKT identifiers: replacing the entries by others with
    the same OGC and ESRI identifiers (other PROJ identifiers, other
    [Unknown] classes, other default numbers) changes neither render. *)
Theorem CRS_wkt_reads_only_wkt_identifiers
    (r : relabelling num) (crs : CRS.t num Param) :
  keeps_wkt r ->
  CRS.to_ogc_wkt (relabel_CRS r crs) = CRS.to_ogc_wkt crs
  /\ CRS.to_esri_wkt (relabel_CRS r crs) = CRS.to_esri_wkt crs.
Proof.
  intros Hr. unfold CRS.to_ogc_wkt, CRS.to_esri_wkt, relabel_CRS.
  cbn [CRS.toplevel].
  destruct (CRS.toplevel crs) as [p | g | o].
  - destruct (ProjCS_wkt_relabel r p Hr) as [-> ->]. now split.
  - destruct (GeogCS_wkt_relabel r g Hr) as [-> ->]. now split.
  - now split.
Qed.

Lemma GeogCS_to_proj4_relabel (r : relabelling num) (g : GeogCS.t num Param) :
  keeps_proj4 r ->
  GeogCS.to_proj4 (relabel_GeogCS r g) = GeogCS.to_proj4 g.
Proof.
  intros (_ & Hdat & Hell & _).
  unfold GeogCS.to_proj4, Datum.to_proj4, Ellipsoid.to_proj4, relabel_GeogCS,
    relabel_Datum, relabel_Ellipsoid.
  cbn [GeogCS.datum GeogCS.prime_mer GeogCS.angunit Datum.name Datum.ellips
       Datum.datumshift Ellipsoid.name Ellipsoid.semimaj_ax Ellipsoid.inv_flat].
  destruct (Hdat (Datum.name (GeogCS.datum g))) as [-> ->].
  destruct (Hell (Ellipsoid.name (Datum.ellips (GeogCS.datum g)))) as [-> ->].
  reflexivity.
Qed.

(** X8: the PROJ render of a CRS reads, of the catalogue entries, nothing
    but the PROJ identifiers and the [Unknown] classes, and reads no
    coordinate-system name: replacing the entries by others that agree on
    these, and the names by any others, does not change the render. *)
Theorem CRS_to_proj4_reads_only_proj4_identifiers
    (r : relabelling num) (crs : CRS.t num Param) :
  keeps_proj4 r ->
  CRS.to_proj4 (relabel_CRS r crs) = CRS.to_proj4 crs.
Proof.
  intros Hr. unfold CRS.to_proj4, relabel_CRS. cbn [CRS.toplevel].
  destruct (CRS.toplevel crs) as [p | g | o]; [| |reflexivity].
  - pose proof (GeogCS_to_proj4_relabel r (ProjCS.geogcs p) Hr) as Hg.
    destruct Hr as (Hdir & _ & _ & Hproj).
    unfold ProjCS.to_proj4, Projection.to_proj4, relabel_ProjCS,
      relabel_Projection, relabel_axes.
    cbn [ProjCS.geogcs ProjCS.proj ProjCS.params ProjCS.unit ProjCS.twin_ax
         Projection.value fst snd].
    now rewrite Hg, Hproj, !Hdir.
  - now rewrite (GeogCS_to_proj4_relabel r g Hr).
Qed.

(** X9: the ESRI render is the OGC render with the two WKT identifiers of
    every catalogue entry, and the two WKT renders of every parameter
    object, exchanged; so it is the very same text when these agree. *)
Theorem esri_wkt_is_ogc_wkt_exchanged :
  (forall g : GeogCS.t num Param,
     GeogCS.to_esri_wkt g
     = @GeogCS.to_ogc_wkt num _ Param (exchanged _) (relabel_GeogCS exchange_wkt g))
  /\ (forall p : ProjCS.t num Param,
        ProjCS.to_esri_wkt p
        = @ProjCS.to_ogc_wkt num _ Param (exchanged _) (relabel_ProjCS exchange_wkt p))
  /\ (forall p : ProjCS.t num Param,
        relabel_ProjCS exchange_wkt p = p ->
        (forall q : Param, parameters.to_esri_wkt q = parameters.to_ogc_wkt q) ->
        ProjCS.to_esri_wkt p = ProjCS.to_ogc_wkt p).
Proof.
  split; [reflexivity | split; [reflexivity|]].
  intros p Hp Hq.
  assert (Hmap : map parameters.to_esri_wkt (ProjCS.params p)
                 = map parameters.to_ogc_wkt (ProjCS.params p)).
  { apply map_ext. exact Hq. }
  assert (Hx : ProjCS.to_esri_wkt p
               = ProjCS.to_esri_wkt (relabel_ProjCS exchange_wkt p))
    by now rewrite Hp.
  rewrite Hx.
  unfold ProjCS.to_esri_wkt, ProjCS.to_ogc_wkt, GeogCS.to_esri_wkt,
    GeogCS.to_ogc_wkt, Datum.to_esri_wkt, Datum.to_ogc_wkt.
  cbn [relabel_ProjCS relabel_GeogCS relabel_Datum relabel_Ellipsoid
       relabel_Projection relabel_axes
       ProjCS.name ProjCS.geogcs ProjCS.proj ProjCS.params ProjCS.unit
       ProjCS.twin_ax GeogCS.name GeogCS.datum GeogCS.prime_mer GeogCS.angunit
       GeogCS.twin_ax Datum.name Datum.ellips Datum.datumshift fst snd].
  rewrite Hmap, !Hq.
  destruct (Datum.datumshift _); rewrite ?Hq; reflexivity.
Qed.

(** ** Reading the kind of root back from a render *)

Lemma ProjCS_to_proj4_opens (p : ProjCS.t num Param) :
  startswith (Projection.to_proj4 (ProjCS.proj p) ++ " ")
    (ProjCS.to_proj4 p ++ " +no_defs") = true.
Proof.
  rewrite ProjCS_to_proj4_flat, <- !append_assoc.
  rewrite !(append_assoc (_ ++ " ")). apply startswith_app.
Qed.

(** An identifier followed by a space that starts a text starting with
    [longlat ] itself starts with [longlat ]. *)
Lemma starts_like_longlat (id rest : string) :
  startswith (id ++ " ") ("longlat " ++ rest) = true ->
  startswith "longlat " (id ++ " ") = true.
Proof.
  intros Hid.
  do 7 (destruct id as [|c id]; [discriminate Hid|];
        simpl in Hid; apply andb_true_iff in Hid as [Hc Hid];
        apply Ascii.eqb_eq in Hc; subst c).
  destruct id as [|c id]; [reflexivity|].
  simpl in Hid. apply andb_true_iff in Hid as [Hc _].
  apply Ascii.eqb_eq in Hc; subst c. reflexivity.
Qed.

(** X15: the kind of root can be read back from a render: in either WKT
    grammar the render of a CRS rooted in a GeogCS is never the render of a
    CRS rooted in a ProjCS, and their PROJ renders differ as well unless
    the PROJ identifier of the projection is [longlat] or starts with
    [longlat ]. *)
Theorem CRS_render_tells_root (g : GeogCS.t num Param) (p : ProjCS.t num Param) :
  let geographic := CRS.init (CRS.IsGeogCS g) in
  let projected := CRS.init (CRS.IsProjCS p) in
  CRS.to_ogc_wkt geographic <> CRS.to_ogc_wkt projected
  /\ CRS.to_esri_wkt geographic <> CRS.to_esri_wkt projected
  /\ (startswith "longlat "
        (str (projections.proj4 (Projection.value (ProjCS.proj p))) ++ " ") = false ->
      CRS.to_proj4 geographic <> CRS.to_proj4 projected).
Proof.
  intros geographic projected. unfold geographic, projected.
  unfold CRS.to_ogc_wkt, CRS.to_esri_wkt, CRS.to_proj4, CRS.init.
  cbn [CRS.toplevel]. split; [|split].
  - intros Heq.
    assert (Hg : forall s, Returns (GeogCS.to_ogc_wkt g) = Returns s ->
                   startswith "G" s = true) by (now intros s [= <-]).
    specialize (Hg _ Heq). discriminate Hg.
  - intros Heq.
    assert (Hg : forall s, Returns (GeogCS.to_esri_wkt g) = Returns s ->
                   startswith "G" s = true) by (now intros s [= <-]).
    specialize (Hg _ Heq). discriminate Hg.
  - intros Hid Heq.
    assert (Heq' : "+proj=longlat " ++ GeogCS.to_proj4 g ++ " +no_defs"
                   = ProjCS.to_proj4 p ++ " +no_defs") by congruence.
    pose proof (ProjCS_to_proj4_opens p) as Hopens.
    rewrite <- Heq' in Hopens. unfold Projection.to_proj4 in Hopens.
    rewrite append_assoc in Hopens.
    change ("+proj=longlat " ++ GeogCS.to_proj4 g ++ " +no_defs")
      with ("+proj=" ++ "longlat " ++ GeogCS.to_proj4 g ++ " +no_defs") in Hopens.
    rewrite startswith_cancel in Hopens.
    apply starts_like_longlat in Hopens. congruence.
Qed.

(** X16: the last tokens of a PROJ render: for a ProjCS root the render
    ends with the [+axis=] flag of the two axis characters and [u], then
    [ +no_defs]; for a GeogCS root it ends with the render of the angular
    unit, then [ +no_defs]. *)
Theorem CRS_to_proj4_last_tokens (crs : CRS.t num Param) :
  (forall p, CRS.toplevel crs = CRS.IsProjCS p ->
     exists out,
       CRS.to_proj4 crs = Some out
       /\ endswith (" " ++ parameters.to_proj4 (ProjCS.unit p)
                      ++ " +axis=" ++ directions.proj4 (fst (ProjCS.twin_ax p))
                      ++ directions.proj4 (snd (ProjCS.twin_ax p)) ++ "u +no_defs")
            out = true)
  /\ (forall g, CRS.toplevel crs = CRS.IsGeogCS g ->
        exists out,
          CRS.to_proj4 crs = Some out
          /\ endswith (" " ++ parameters.to_proj4 (GeogCS.angunit g) ++ " +no_defs")
               out = true).
Proof.
  unfold CRS.to_proj4. split.
  - intros p ->. eexists. split; [reflexivity|].
    rewrite ProjCS_to_proj4_flat.
    assert (Heq : forall a b c d e f : string,
              (a ++ " " ++ b ++ " " ++ c ++ " " ++ d ++ " +axis=" ++ e ++ f ++ "u")
                ++ " +no_defs"
              = (a ++ " " ++ b ++ " " ++ c)
                  ++ " " ++ d ++ " +axis=" ++ e ++ f ++ "u +no_defs").
    { intros. now rewrite !append_assoc. }
    rewrite Heq. apply endswith_app.
  - intros g ->. eexists. split; [reflexivity|].
    unfold GeogCS.to_proj4.
    assert (Heq : forall a b c : string,
              "+proj=longlat " ++ (a ++ " " ++ b ++ " " ++ c) ++ " +no_defs"
              = ("+proj=longlat " ++ a ++ " " ++ b) ++ " " ++ c ++ " +no_defs").
    { intros. now rewrite !append_assoc. }
    rewrite Heq. apply endswith_app.
Qed.

End Structure.

(** ** Characters and brackets of the renders *)

From Stdlib Require Import Lia PeanoNat.

Lemma count_char_app (c : ascii) (a b : string) :
  count_char c (a ++ b) = count_char c a + count_char c b.
Proof.
  induction a as [|x a IH]; simpl; [reflexivity|]. rewrite IH. lia.
Qed.

Lemma count_char_join (c : ascii) (sep : string) (l : list string) :
  count_char c sep = 0 ->
  count_char c (join sep l) = list_sum (map (count_char c) l).
Proof.
  intros Hsep. induction l as [|x l IH]; [reflexivity|].
  destruct l as [|y l].
  - simpl. lia.
  - change (join sep (x :: y :: l)) with (x ++ sep ++ join sep (y :: l)).
    rewrite !count_char_app, IH, Hsep. simpl. lia.
Qed.

Lemma balanced_eq (s : string) :
  balanced s = true <-> count_char "[" s = count_char "]" s.
Proof. apply Nat.eqb_eq. Qed.

Lemma balanced_list_sum (l : list string) :
  forallb balanced l = true ->
  list_sum (map (count_char "[") l) = list_sum (map (count_char "]") l).
Proof.
  induction l as [|x l IH]; [reflexivity|].
  simpl. intros Hl. apply andb_true_iff in Hl as [Hx Hl].
  apply balanced_eq in Hx. rewrite Hx, IH by assumption. reflexivity.
Qed.

Lemma count_char_dquote_open : count_char "[" dquote = 0.
Proof. reflexivity. Qed.

Lemma count_char_dquote_close : count_char "]" dquote = 0.
Proof. reflexivity. Qed.

Lemma has_char_included (c : ascii) (small big : string) :
  included small big = true -> has_char c big = false -> has_char c small = false.
Proof.
  intros Hin Hbig. induction small as [|x small IH]; [reflexivity|].
  simpl in Hin |- *. apply andb_true_iff in Hin as [Hx Hin].
  rewrite IH by assumption. rewrite orb_false_r.
  destruct (Ascii.eqb_spec c x) as [->|]; [congruence | reflexivity].
Qed.

Lemma has_char_join (c : ascii) (sep : string) (l : list string) :
  has_char c sep = false -> existsb (has_char c) l = false ->
  has_char c (join sep l) = false.
Proof.
  intros Hsep. induction l as [|x l IH]; [reflexivity|].
  simpl. intros Hl. apply orb_false_iff in Hl as [Hx Hl].
  destruct l as [|y l]; [exact Hx|].
  rewrite !has_char_app, Hx, Hsep. exact (IH Hl).
Qed.

(** Splits what is known of a list of parts into what is known of each. *)
Ltac break_parts :=
  repeat match goal with
  | H : existsb _ (_ ++ _) = false |- _ => rewrite existsb_app in H
  | H : existsb _ (_ :: _) = false |- _ => cbn [existsb] in H
  | H : _ || _ = false |- _ => apply orb_false_iff in H; destruct H
  | H : forallb _ (_ ++ _) = true |- _ => rewrite forallb_app in H
  | H : forallb _ (_ :: _) = true |- _ => cbn [forallb] in H
  | H : _ && _ = true |- _ => apply andb_true_iff in H; destruct H
  | H : balanced _ = true |- _ => apply balanced_eq in H
  end.

(** A literal holds no character from outside the alphabet [Hlit]. *)
Ltac in_literals Hlit :=
  eapply has_char_included; [ | exact Hlit ]; reflexivity.

(** A concatenation holds the character only if a piece does. *)
Ltac char_free Hlit :=
  rewrite ?has_char_app;
  repeat match goal with |- (_ || _) = false => apply orb_false_intro end;
  first [ assumption | reflexivity | in_literals Hlit ].

Section Characters.
Context {num : Type} `{Str num} `{directions.Catalog}
  {Param : Type} `{parameters.Renderable Param}.

Lemma GeogCS_to_proj4_chars (c : ascii) (g : GeogCS.t num Param) :
  has_char c proj4_literals = false ->
  existsb (has_char c) (GeogCS_parts g) = false ->
  has_char c (GeogCS.to_proj4 g) = false.
Proof.
  intros Hlit Hparts.
  unfold GeogCS_parts, Datum_parts, Ellipsoid_parts in Hparts.
  unfold GeogCS.to_proj4. rewrite Datum_to_proj4_cases, Ellipsoid_to_proj4_cases.
  cbv zeta.
  destruct (Datum.datumshift (GeogCS.datum g)); cbv beta match in *; break_parts;
    repeat match goal with |- context [if ?b then _ else _] => destruct b end;
    char_free Hlit.
Qed.

Lemma ProjCS_to_proj4_chars (c : ascii) (p : ProjCS.t num Param) :
  has_char c proj4_literals = false ->
  existsb (has_char c)
    (ProjCS_parts p ++ [ directions.proj4 (fst (ProjCS.twin_ax p));
                         directions.proj4 (snd (ProjCS.twin_ax p)) ]) = false ->
  has_char c (ProjCS.to_proj4 p) = false.
Proof.
  intros Hlit Hparts. unfold ProjCS_parts in Hparts. break_parts.
  rewrite ProjCS_to_proj4_flat. unfold Projection.to_proj4.
  rewrite !has_char_app.
  rewrite GeogCS_to_proj4_chars by assumption.
  rewrite has_char_join
    by (assumption || in_literals Hlit).
  char_free Hlit.
Qed.

(** X13: a PROJ render holds no character from outside its grammar unless
    a part brings it: a character that is in no literal of the [to_proj4]
    methods (a bracket, a comma, a double quote) and in no part of the
    tree is not in the render. *)
Theorem CRS_to_proj4_alphabet (crs : CRS.t num Param) (c : ascii) (out : string) :
  has_char c proj4_literals = false ->
  existsb (has_char c) (root_proj4_parts (CRS.toplevel crs)) = false ->
  CRS.to_proj4 crs = Some out ->
  has_char c out = false.
Proof.
  intros Hlit Hparts. unfold CRS.to_proj4.
  destruct (CRS.toplevel crs) as [p | g | o]; cbn [root_proj4_parts] in Hparts;
    intros Hout; try discriminate; injection Hout as Hout; rewrite <- Hout.
  - change (has_char c (ProjCS.to_proj4 p ++ " +no_defs") = false).
    rewrite has_char_app, ProjCS_to_proj4_chars by assumption.
    char_free Hlit.
  - change (has_char c ("+proj=longlat " ++ GeogCS.to_proj4 g ++ " +no_defs") = false).
    rewrite !has_char_app, GeogCS_to_proj4_chars by assumption.
    char_free Hlit.
Qed.

Lemma GeogCS_to_ogc_wkt_chars (c : ascii) (g : GeogCS.t num Param) :
  has_char c wkt_literals = false ->
  existsb (has_char c) (GeogCS_ogc_parts g) = false ->
  has_char c (GeogCS.to_ogc_wkt g) = false.
Proof.
  intros Hlit Hparts.
  unfold GeogCS_ogc_parts, Datum_ogc_parts, Ellipsoid_ogc_parts in Hparts.
  unfold GeogCS.to_ogc_wkt, Datum.to_ogc_wkt, Ellipsoid.to_ogc_wkt.
  destruct (Datum.datumshift (GeogCS.datum g)); cbv beta match in *; break_parts; char_free Hlit.
Qed.

Lemma ProjCS_to_ogc_wkt_chars (c : ascii) (p : ProjCS.t num Param) :
  has_char c wkt_literals = false ->
  existsb (has_char c) (ProjCS_ogc_parts p) = false ->
  has_char c (ProjCS.to_ogc_wkt p) = false.
Proof.
  intros Hlit Hparts. unfold ProjCS_ogc_parts in Hparts. break_parts.
  rewrite ProjCS_to_ogc_wkt_flat. unfold Projection.to_ogc_wkt.
  rewrite !has_char_app.
  rewrite GeogCS_to_ogc_wkt_chars by assumption.
  rewrite has_char_join
    by (assumption || in_literals Hlit).
  char_free Hlit.
Qed.

Lemma GeogCS_to_ogc_wkt_balanced (g : GeogCS.t num Param) :
  forallb balanced (GeogCS_ogc_parts g) = true ->
  balanced (GeogCS.to_ogc_wkt g) = true.
Proof.
  intros Hparts. apply balanced_eq.
  unfold GeogCS_ogc_parts, Datum_ogc_parts, Ellipsoid_ogc_parts in Hparts.
  unfold GeogCS.to_ogc_wkt, Datum.to_ogc_wkt, Ellipsoid.to_ogc_wkt.
  destruct (Datum.datumshift (GeogCS.datum g)); cbv beta match in *; break_parts;
    rewrite !count_char_app, !count_char_dquote_open, !count_char_dquote_close;
    simpl; lia.
Qed.

Lemma ProjCS_to_ogc_wkt_balanced (p : ProjCS.t num Param) :
  forallb balanced (ProjCS_ogc_parts p) = true ->
  balanced (ProjCS.to_ogc_wkt p) = true.
Proof.
  intros Hparts. unfold ProjCS_ogc_parts in Hparts. break_parts.
  match goal with Hg : forallb balanced (GeogCS_ogc_parts _) = true |- _ =>
    apply GeogCS_to_ogc_wkt_balanced, balanced_eq in Hg end.
  match goal with Hp : forallb balanced (map _ _) = true |- _ =>
    apply balanced_list_sum in Hp end.
  apply balanced_eq.
  rewrite ProjCS_to_ogc_wkt_flat. unfold Projection.to_ogc_wkt.
  rewrite !count_char_app, !count_char_dquote_open, !count_char_dquote_close.
  rewrite !(count_char_join _ ", ") by reflexivity.
  match goal with Hg : count_char "[" (GeogCS.to_ogc_wkt _) = _ |- _ =>
    rewrite Hg end.
  generalize (count_char "]" (GeogCS.to_ogc_wkt (ProjCS.geogcs p))).
  intros n. simpl. lia.
Qed.

Lemma GeogCS_to_esri_wkt_chars (c : ascii) (g : GeogCS.t num Param) :
  has_char c wkt_literals = false ->
  existsb (has_char c) (GeogCS_esri_parts g) = false ->
  has_char c (GeogCS.to_esri_wkt g) = false.
Proof.
  intros Hlit Hparts.
  unfold GeogCS_esri_parts, Datum_esri_parts, Ellipsoid_esri_parts in Hparts.
  unfold GeogCS.to_esri_wkt, Datum.to_esri_wkt, Ellipsoid.to_esri_wkt.
  destruct (Datum.datumshift (GeogCS.datum g)); cbv beta match in *; break_parts; char_free Hlit.
Qed.

Lemma ProjCS_to_esri_wkt_chars (c : ascii) (p : ProjCS.t num Param) :
  has_char c wkt_literals = false ->
  existsb (has_char c) (ProjCS_esri_parts p) = false ->
  has_char c (ProjCS.to_esri_wkt p) = false.
Proof.
  intros Hlit Hparts. unfold ProjCS_esri_parts in Hparts. break_parts.
  rewrite ProjCS_to_esri_wkt_flat. unfold Projection.to_esri_wkt.
  rewrite !has_char_app.
  rewrite GeogCS_to_esri_wkt_chars by assumption.
  rewrite has_char_join
    by (assumption || in_literals Hlit).
  char_free Hlit.
Qed.

Lemma GeogCS_to_esri_wkt_balanced (g : GeogCS.t num Param) :
  forallb balanced (GeogCS_esri_parts g) = true ->
  balanced (GeogCS.to_esri_wkt g) = true.
Proof.
  intros Hparts. apply balanced_eq.
  unfold GeogCS_esri_parts, Datum_esri_parts, Ellipsoid_esri_parts in Hparts.
  unfold GeogCS.to_esri_wkt, Datum.to_esri_wkt, Ellipsoid.to_esri_wkt.
  destruct (Datum.datumshift (GeogCS.datum g)); cbv beta match in *; break_parts;
    rewrite !count_char_app, !count_char_dquote_open, !count_char_dquote_close;
    simpl; lia.
Qed.

Lemma ProjCS_to_esri_wkt_balanced (p : ProjCS.t num Param) :
  forallb balanced (ProjCS_esri_parts p) = true ->
  balanced (ProjCS.to_esri_wkt p) = true.
Proof.
  intros Hparts. unfold ProjCS_esri_parts in Hparts. break_parts.
  match goal with Hg : forallb balanced (GeogCS_esri_parts _) = true |- _ =>
    apply GeogCS_to_esri_wkt_balanced, balanced_eq in Hg end.
  match goal with Hp : forallb balanced (map _ _) = true |- _ =>
    apply balanced_list_sum in Hp end.
  apply balanced_eq.
  rewrite ProjCS_to_esri_wkt_flat. unfold Projection.to_esri_wkt.
  rewrite !count_char_app, !count_char_dquote_open, !count_char_dquote_close.
  rewrite !(count_char_join _ ", ") by reflexivity.
  match goal with Hg : count_char "[" (GeogCS.to_esri_wkt _) = _ |- _ =>
    rewrite Hg end.
  generalize (count_char "]" (GeogCS.to_esri_wkt (ProjCS.geogcs p))).
  intros n. simpl. lia.
Qed.

(** X14: a WKT render holds no character from outside its grammar unless
    a part brings it: for a CRS rooted in a GeogCS or a ProjCS, a
    character that is in no literal of the WKT methods (a [+], an [=]) and
    in no part of the tree is not in the render, in either grammar. *)
Theorem CRS_wkt_alphabet
    (crs : CRS.t num Param) (g : GeogCS.t num Param) (c : ascii) :
  root_geogcs (CRS.toplevel crs) = Some g ->
  has_char c wkt_literals = false ->
  (existsb (has_char c) (root_ogc_parts (CRS.toplevel crs)) = false ->
   exists out, CRS.to_ogc_wkt crs = Returns out /\ has_char c out = false)
  /\ (existsb (has_char c) (root_esri_parts (CRS.toplevel crs)) = false ->
      exists out, CRS.to_esri_wkt crs = Returns out /\ has_char c out = false).
Proof.
  intros Hroot Hlit. unfold CRS.to_ogc_wkt, CRS.to_esri_wkt.
  destruct (CRS.toplevel crs) as [p | g' | o]; [| |discriminate];
    cbn [root_ogc_parts root_esri_parts]; split; intros Hparts;
    eexists; (split; [reflexivity|]).
  - now apply ProjCS_to_ogc_wkt_chars.
  - now apply ProjCS_to_esri_wkt_chars.
  - now apply GeogCS_to_ogc_wkt_chars.
  - now apply GeogCS_to_esri_wkt_chars.
Qed.

(** X11: the square brackets of a WKT render are balanced whenever those
    of its parts are: for a CRS rooted in a GeogCS or a ProjCS whose
    names, identifiers, printed numbers and parameter renders each have as
    many opening as closing brackets, so has the render, in either
    grammar. *)
Theorem CRS_wkt_brackets_balanced
    (crs : CRS.t num Param) (g : GeogCS.t num Param) :
  root_geogcs (CRS.toplevel crs) = Some g ->
  (forallb balanced (root_ogc_parts (CRS.toplevel crs)) = true ->
   exists out, CRS.to_ogc_wkt crs = Returns out /\ balanced out = true)
  /\ (forallb balanced (root_esri_parts (CRS.toplevel crs)) = true ->
      exists out, CRS.to_esri_wkt crs = Returns out /\ balanced out = true).
Proof.
  intros Hroot. unfold CRS.to_ogc_wkt, CRS.to_esri_wkt.
  destruct (CRS.toplevel crs) as [p | g' | o]; [| |discriminate];
    cbn [root_ogc_parts root_esri_parts]; split; intros Hparts;
    eexists; (split; [reflexivity|]).
  - now apply ProjCS_to_ogc_wkt_balanced.
  - now apply ProjCS_to_esri_wkt_balanced.
  - now apply GeogCS_to_ogc_wkt_balanced.
  - now apply GeogCS_to_esri_wkt_balanced.
Qed.

End Characters.

(** ** Renders on a one-shot iterator *)

Lemma length_append (a b : string) :
  String.length (a ++ b) = String.length a + String.length b.
Proof.
  induction a as [|x a IH]; simpl; [reflexivity | now rewrite IH].
Qed.

Lemma append_cancel_l (a x y : string) : a ++ x = a ++ y -> x = y.
Proof.
  induction a as [|c a IH]; simpl; [easy|]. intros [= Heq]. now apply IH.
Qed.

(** A text put between a front and a back changes the whole unless it is
    empty. *)
Lemma append_mid_empty (front x back : string) :
  front ++ x ++ back = front ++ back -> x = "".
Proof.
  intros Heq. apply append_cancel_l in Heq.
  apply (f_equal String.length) in Heq. rewrite length_append in Heq.
  destruct x; [reflexivity | simpl in Heq; lia].
Qed.

Section Iterators.
Context {num : Type} `{Str num} `{directions.Catalog}
  {Param : Type} `{parameters.Renderable Param}.

(** X17: a render of a ProjCS traverses [params] once and so uses up a
    one-shot iterator given as [params]: the first render has the
    parameters the iterator had left, any later render has none, and the
    two texts differ unless the parameters render, joined, to the empty
    text; so it is in the PROJ render and in both WKT renders. *)
Theorem ProjCS_render_uses_up_iterator
    (cs : Stateful.projcs num Param) (remaining : list Param) :
  Stateful.params cs = AsIterator remaining ->
  (let (first, cs1) := Stateful.to_proj4 cs in
   let (second, cs2) := Stateful.to_proj4 cs1 in
   first = ProjCS.to_proj4 (Stateful.seen cs)
   /\ Stateful.params cs1 = AsIterator []
   /\ second = ProjCS.to_proj4 (Stateful.seen cs1)
   /\ (join " " (map parameters.to_proj4 remaining) <> "" -> second <> first))
  /\ (let (first, cs1) := Stateful.to_ogc_wkt cs in
      let (second, cs2) := Stateful.to_ogc_wkt cs1 in
      first = ProjCS.to_ogc_wkt (Stateful.seen cs)
      /\ Stateful.params cs1 = AsIterator []
      /\ second = ProjCS.to_ogc_wkt (Stateful.seen cs1)
      /\ (join ", " (map parameters.to_ogc_wkt remaining) <> "" -> second <> first))
  /\ (let (first, cs1) := Stateful.to_esri_wkt cs in
      let (second, cs2) := Stateful.to_esri_wkt cs1 in
      first = ProjCS.to_esri_wkt (Stateful.seen cs)
      /\ Stateful.params cs1 = AsIterator []
      /\ second = ProjCS.to_esri_wkt (Stateful.seen cs1)
      /\ (join ", " (map parameters.to_esri_wkt remaining) <> "" -> second <> first)).
Proof.
  destruct cs as [nm g pr it u ax]. cbn [Stateful.params]. intros ->.
  split; [|split].
  - cbn [Stateful.to_proj4 traverse Stateful.params Stateful.after
         Stateful.name Stateful.geogcs Stateful.proj Stateful.unit Stateful.twin_ax].
    split; [reflexivity | split; [reflexivity | split; [reflexivity|]]].
    intros Hjoin Heq. apply Hjoin.
    cbn [map join String.concat] in Heq.
    rewrite !append_assoc in Heq. symmetry in Heq.
    repeat apply append_cancel_l in Heq.
    apply (append_mid_empty "" _ _ Heq).
  - cbn [Stateful.to_ogc_wkt traverse Stateful.params Stateful.after
         Stateful.name Stateful.geogcs Stateful.proj Stateful.unit Stateful.twin_ax].
    split; [reflexivity | split; [reflexivity | split; [reflexivity|]]].
    intros Hjoin Heq. apply Hjoin.
    cbn [map join String.concat] in Heq.
    rewrite !append_assoc in Heq. symmetry in Heq.
    repeat apply append_cancel_l in Heq.
    apply (append_mid_empty "" _ _ Heq).
  - cbn [Stateful.to_esri_wkt traverse Stateful.params Stateful.after
         Stateful.name Stateful.geogcs Stateful.proj Stateful.unit Stateful.twin_ax].
    split; [reflexivity | split; [reflexivity | split; [reflexivity|]]].
    intros Hjoin Heq. apply Hjoin.
    cbn [map join String.concat] in Heq.
    rewrite !append_assoc in Heq. symmetry in Heq.
    repeat apply append_cancel_l in Heq.
    apply (append_mid_empty "" _ _ Heq).
Qed.

End Iterators.

(** ** The properties on the sample catalogue *)

Import sample.

Example unknown_ellipsoid_to_proj4 :
  Ellipsoid.to_proj4 sample.unknown_ellipsoid = "+a=6378137.0 +f=298.257223563".
Proof. reflexivity. Qed.

Example named_ellipsoid_to_proj4 :
  Ellipsoid.to_proj4 sample.ellipsoid
  = "+ellps=WGS84 +a=6378137.0 +f=298.257223563".
Proof. reflexivity. Qed.

Example geographic_crs_to_proj4 :
  CRS.to_proj4 (CRS.init (CRS.IsGeogCS sample.geogcs))
  = Some ("+proj=longlat +datum=WGS84 +ellps=WGS84 +a=6378137.0 +f=298.257223563"
            ++ " +pm=0.0 +to_degree=0.0174532925199433 +no_defs").
Proof. reflexivity. Qed.

Example projected_crs_to_proj4 :
  CRS.to_proj4 (CRS.init (CRS.IsProjCS sample.projcs))
  = Some ("+proj=robin +datum=WGS84 +ellps=WGS84 +a=6378137.0 +f=298.257223563"
            ++ " +pm=0.0 +to_degree=0.0174532925199433"
            ++ " +lon_0=0.0 +x_0=0.0 +y_0=0.0 +to_meter=1.0 +axis=enu +no_defs").
Proof. reflexivity. Qed.

(** With no parameter the two separating spaces stand side by side. *)
Example projcs_without_params_to_proj4 :
  ProjCS.to_proj4
    (ProjCS.init "World Robinson" sample.geogcs (Projection.init sample.Robinson)
       [] sample.metre (Some (sample.West, sample.South)))
  = "+proj=robin +datum=WGS84 +ellps=WGS84 +a=6378137.0 +f=298.257223563"
      ++ " +pm=0.0 +to_degree=0.0174532925199433  +to_meter=1.0 +axis=wsu".
Proof. reflexivity. Qed.

Lemma Ellipsoid_to_proj4_forms_witness :
  ellipsoids.Unknown (Ellipsoid.name sample.unknown_ellipsoid) = true
  /\ Ellipsoid.to_proj4 sample.unknown_ellipsoid = "+a=6378137.0 +f=298.257223563"
  /\ contains "+ellps=" (Ellipsoid.to_proj4 sample.unknown_ellipsoid) = false
  /\ Ellipsoid.to_proj4 sample.ellipsoid
     = "+ellps=WGS84 +a=6378137.0 +f=298.257223563".
Proof.
  pose proof (Ellipsoid_to_proj4_forms sample.unknown_ellipsoid) as Hu.
  pose proof (Ellipsoid_to_proj4_forms sample.ellipsoid) as Hn.
  cbv zeta in Hu, Hn.
  destruct Hu as [Hu _]. destruct Hn as [_ [Hn _]].
  destruct (Hu (or_introl eq_refl)) as [Heq Hfree].
  split; [reflexivity | split; [exact Heq | split]].
  - apply Hfree; reflexivity.
  - apply (Hn "WGS84"); [reflexivity | reflexivity | discriminate].
Defined.

(** The catalogue entry of the Unknown ellipsoid has no default: built
    with no number, the ellipsoid holds none. *)
Lemma Ellipsoid_init_Unknown_holds_None :
  Ellipsoid.semimaj_ax (Ellipsoid.init sample.Unknown_ellipsoid None None) = None
  /\ Ellipsoid.inv_flat (Ellipsoid.init sample.Unknown_ellipsoid None None) = None.
Proof. split; reflexivity. Qed.


Lemma Datum_to_proj4_priority_witness :
  Datum.datumshift sample.shifted_datum = Some sample.towgs84
  /\ free_of "+datum=" (Ellipsoid_parts (Datum.ellips sample.shifted_datum)) = true
  /\ Datum.to_proj4 sample.shifted_datum
     = "+ellps=WGS84 +a=6378137.0 +f=298.257223563 +towgs84=0,0,0"
  /\ contains "+datum=" (Datum.to_proj4 sample.shifted_datum) = false
  /\ Datum.to_proj4 sample.datum
     = "+datum=WGS84 +ellps=WGS84 +a=6378137.0 +f=298.257223563".
Proof.
  pose proof (Datum_to_proj4_priority sample.shifted_datum) as Hs.
  pose proof (Datum_to_proj4_priority sample.datum) as Hn.
  cbv zeta in Hs, Hn.
  destruct Hs as [Hs _]. destruct Hn as (_ & _ & _ & Hn).
  destruct (Hs sample.towgs84 eq_refl) as [Heq Hfree].
  split; [reflexivity | split; [reflexivity | split; [exact Heq | split]]].
  - apply Hfree; reflexivity.
  - apply (Hn "WGS84"); [reflexivity | reflexivity | reflexivity | discriminate].
Defined.

Lemma GeogCS_to_proj4_without_axes_witness :
  free_of "+axis=" (GeogCS_parts sample.geogcs) = true
  /\ contains "+axis=" (GeogCS.to_proj4 sample.geogcs) = false
  /\ GeogCS.to_proj4
       (GeogCS.init "WGS 84" sample.datum sample.greenwich sample.degree
          (Some (sample.West, sample.South)))
     = GeogCS.to_proj4 sample.geogcs.
Proof.
  destruct (GeogCS_to_proj4_without_axes sample.geogcs) as (_ & Haxes & Hfree).
  split; [reflexivity | split].
  - apply Hfree; reflexivity.
  - apply Haxes; reflexivity.
Defined.

Lemma CRS_to_proj4_framing_witness :
  free_of "+proj=longlat" (ProjCS_parts sample.projcs) = true
  /\ startswith "longlat"
       (str (projections.proj4 (Projection.value (ProjCS.proj sample.projcs)))) = false
  /\ has_char "+" (directions.proj4 (fst (ProjCS.twin_ax sample.projcs))) = false
  /\ has_char "+" (directions.proj4 (snd (ProjCS.twin_ax sample.projcs))) = false
  /\ contains "+proj=longlat" (ProjCS.to_proj4 sample.projcs ++ " +no_defs") = false
  /\ CRS.to_proj4 (CRS.init (CRS.IsProjCS sample.projcs))
     = Some (ProjCS.to_proj4 sample.projcs ++ " +no_defs").
Proof.
  destruct (CRS_to_proj4_framing (CRS.init (CRS.IsProjCS sample.projcs)))
    as (_ & Hproj & _).
  destruct (Hproj sample.projcs eq_refl) as [Heq Hfree].
  do 4 (split; [reflexivity|]).
  split; [apply Hfree; reflexivity | exact Heq].
Defined.

(** ** The further properties on the sample catalogue *)

Lemma CRS_to_proj4_starts_with_proj_witness :
  CRS.to_proj4 (CRS.init (CRS.IsProjCS sample.projcs))
  = Some (ProjCS.to_proj4 sample.projcs ++ " +no_defs")
  /\ startswith "+proj=" (ProjCS.to_proj4 sample.projcs ++ " +no_defs") = true
  /\ startswith "+proj=robin " (ProjCS.to_proj4 sample.projcs ++ " +no_defs") = true.
Proof.
  destruct (CRS_to_proj4_starts_with_proj
              (CRS.init (CRS.IsProjCS sample.projcs)) _ eq_refl) as [Hs Hp].
  split; [reflexivity | split; [exact Hs | exact (Hp _ eq_refl)]].
Defined.

Lemma CRS_to_proj4_holds_components_witness :
  root_geogcs (CRS.toplevel (CRS.init (CRS.IsProjCS sample.projcs)))
  = Some sample.geogcs
  /\ exists out,
       CRS.to_proj4 (CRS.init (CRS.IsProjCS sample.projcs)) = Some out
       /\ contains "+a=6378137.0 +f=298.257223563" out = true.
Proof.
  split; [reflexivity|].
  destruct (CRS_to_proj4_holds_components
              (CRS.init (CRS.IsProjCS sample.projcs)) sample.geogcs eq_refl)
    as (out & Hout & _ & _ & _ & Hnum).
  exists out. split; [exact Hout | exact Hnum].
Defined.

Lemma CRS_wkt_holds_components_witness :
  root_geogcs (CRS.toplevel (CRS.init (CRS.IsProjCS sample.projcs)))
  = Some sample.geogcs
  /\ CRS.to_ogc_wkt (CRS.init (CRS.IsProjCS sample.projcs))
     = Returns (ProjCS.to_ogc_wkt sample.projcs)
  /\ contains (Ellipsoid.to_ogc_wkt sample.ellipsoid)
       (ProjCS.to_ogc_wkt sample.projcs) = true.
Proof.
  split; [reflexivity | split; [reflexivity|]].
  destruct (CRS_wkt_holds_components
              (CRS.init (CRS.IsProjCS sample.projcs)) sample.geogcs eq_refl)
    as [Hogc _].
  exact (proj2 (proj2 (Hogc _ eq_refl))).
Defined.

Lemma Ellipsoid_without_numbers_renders_None_witness :
  ellipsoids.semimaj_ax sample.Unknown_ellipsoid = None
  /\ ellipsoids.inv_flat sample.Unknown_ellipsoid = None
  /\ Ellipsoid.to_ogc_wkt (Ellipsoid.init sample.Unknown_ellipsoid None None)
     = "SPHEROID[" ++ dquote ++ "Unknown" ++ dquote ++ ", None, None]"
  /\ exists front,
       Ellipsoid.to_proj4 (Ellipsoid.init sample.Unknown_ellipsoid None None)
       = front ++ "+a=None +f=None".
Proof.
  destruct (Ellipsoid_without_numbers_renders_None sample.Unknown_ellipsoid
              eq_refl eq_refl) as (_ & _ & Hproj & Hogc & _).
  split; [reflexivity | split; [reflexivity | split; [exact Hogc | exact Hproj]]].
Defined.

Lemma ProjCS_without_params_witness :
  ProjCS.params
    (ProjCS.init "World Robinson" sample.geogcs (Projection.init sample.Robinson)
       [] sample.metre None) = []
  /\ contains "  "
       (ProjCS.to_proj4
          (ProjCS.init "World Robinson" sample.geogcs
             (Projection.init sample.Robinson) [] sample.metre None)) = true.
Proof.
  split; [reflexivity|].
  destruct (ProjCS_without_params
              (ProjCS.init "World Robinson" sample.geogcs
                 (Projection.init sample.Robinson) [] sample.metre None) eq_refl)
    as (_ & Hspaces & _).
  exact Hspaces.
Defined.

Lemma CRS_wkt_reads_only_wkt_identifiers_witness :
  keeps_wkt (@forget_proj4 string)
  /\ CRS.to_ogc_wkt (relabel_CRS forget_proj4 (CRS.init (CRS.IsProjCS sample.projcs)))
     = CRS.to_ogc_wkt (CRS.init (CRS.IsProjCS sample.projcs))
  /\ CRS.to_proj4 (relabel_CRS forget_proj4 (CRS.init (CRS.IsProjCS sample.projcs)))
     <> CRS.to_proj4 (CRS.init (CRS.IsProjCS sample.projcs)).
Proof.
  assert (Hkeeps : keeps_wkt (@forget_proj4 string))
    by (repeat split; reflexivity).
  split; [exact Hkeeps | split].
  - exact (proj1 (CRS_wkt_reads_only_wkt_identifiers forget_proj4
                    (CRS.init (CRS.IsProjCS sample.projcs)) Hkeeps)).
  - discriminate.
Defined.

Lemma CRS_to_proj4_reads_only_proj4_identifiers_witness :
  keeps_proj4 (@forget_wkt string)
  /\ CRS.to_proj4 (relabel_CRS forget_wkt (CRS.init (CRS.IsProjCS sample.projcs)))
     = CRS.to_proj4 (CRS.init (CRS.IsProjCS sample.projcs))
  /\ CRS.to_ogc_wkt (relabel_CRS forget_wkt (CRS.init (CRS.IsProjCS sample.projcs)))
     <> CRS.to_ogc_wkt (CRS.init (CRS.IsProjCS sample.projcs)).
Proof.
  assert (Hkeeps : keeps_proj4 (@forget_wkt string))
    by (repeat split; reflexivity).
  split; [exact Hkeeps | split].
  - exact (CRS_to_proj4_reads_only_proj4_identifiers forget_wkt
             (CRS.init (CRS.IsProjCS sample.projcs)) Hkeeps).
  - discriminate.
Defined.

Lemma CRS_to_proj4_alphabet_witness :
  has_char "[" proj4_literals = false
  /\ existsb (has_char "[")
       (root_proj4_parts (CRS.toplevel (CRS.init (CRS.IsProjCS sample.projcs)))) = false
  /\ has_char "[" (ProjCS.to_proj4 sample.projcs ++ " +no_defs") = false.
Proof.
  split; [reflexivity | split; [reflexivity|]].
  exact (CRS_to_proj4_alphabet (CRS.init (CRS.IsProjCS sample.projcs)) "["
           _ eq_refl eq_refl eq_refl).
Defined.

Lemma CRS_wkt_alphabet_witness :
  has_char "+" wkt_literals = false
  /\ existsb (has_char "+")
       (root_ogc_parts (CRS.toplevel (CRS.init (CRS.IsProjCS sample.projcs)))) = false
  /\ exists out,
       CRS.to_ogc_wkt (CRS.init (CRS.IsProjCS sample.projcs)) = Returns out
       /\ has_char "+" out = false.
Proof.
  split; [reflexivity | split; [reflexivity|]].
  destruct (CRS_wkt_alphabet (CRS.init (CRS.IsProjCS sample.projcs))
              sample.geogcs "+" eq_refl eq_refl) as [Hogc _].
  exact (Hogc eq_refl).
Defined.

Lemma CRS_wkt_brackets_balanced_witness :
  forallb balanced
    (root_ogc_parts (CRS.toplevel (CRS.init (CRS.IsProjCS sample.projcs)))) = true
  /\ exists out,
       CRS.to_ogc_wkt (CRS.init (CRS.IsProjCS sample.projcs)) = Returns out
       /\ balanced out = true.
Proof.
  split; [reflexivity|].
  destruct (CRS_wkt_brackets_balanced (CRS.init (CRS.IsProjCS sample.projcs))
              sample.geogcs eq_refl) as [Hogc _].
  exact (Hogc eq_refl).
Defined.

Lemma ProjCS_render_uses_up_iterator_witness :
  Stateful.params sample.projcs_generator
  = AsIterator [sample.lon_0; sample.x_0; sample.y_0]
  /\ join " " (map parameters.to_proj4 [sample.lon_0; sample.x_0; sample.y_0]) <> ""
  /\ fst (Stateful.to_proj4 (snd (Stateful.to_proj4 sample.projcs_generator)))
     <> fst (Stateful.to_proj4 sample.projcs_generator).
Proof.
  split; [reflexivity | split; [discriminate|]].
  pose proof (ProjCS_render_uses_up_iterator sample.projcs_generator _ eq_refl)
    as [H4 _].
  destruct (Stateful.to_proj4 sample.projcs_generator) as [first cs1].
  cbn [fst snd].
  destruct (Stateful.to_proj4 cs1) as [second cs2].
  destruct H4 as (_ & _ & _ & Hdiffer).
  apply Hdiffer. discriminate.
Defined.
